(** * Verification of the WooCommerce CDK stacks

    Shallow embedding of the three stack constructors of the repository

    - [cdk-woocommerce/lib/cdk-woocommerce-stack.ts]       (gateway + functions),
    - [cdk-woocommerce/lib/cdk-woocommerce-cicd-stack.ts]  (gateway + functions + pipeline),
    - [cdk-woocommerce-cicd/lib/cdk-woocommerce-cicd-stack.ts] (container service + pipeline),

    as programs of a small state monad over the synthesized template.
    A [new X(this, id, props)] registers a construct, the mutating calls
    ([grantReadWriteData], [addMethod], [addContainer], ...) update the
    template, and values that are only known at deployment time
    ([table.tableName], [repository.repositoryArn], ...) are symbolic. *)

From Stdlib Require Import String Ascii List Bool Arith Lia Permutation.
Import ListNotations.
Open Scope string_scope.

(** ** The synthesis monad *)

Module Synth.

Definition M (S A : Type) : Type := S -> A * S.

Definition ret {S A} (a : A) : M S A := fun s => (a, s).

Definition bind {S A B} (m : M S A) (k : A -> M S B) : M S B :=
  fun s => let (a, s') := m s in k a s'.

Definition modify {S} (f : S -> S) : M S unit := fun s => (tt, f s).

Definition exec {S A} (m : M S A) (s : S) : S := snd (m s).

Fixpoint forEach {S A} (f : A -> M S unit) (l : list A) : M S unit :=
  match l with
  | [] => ret tt
  | a :: l' => bind (f a) (fun _ => forEach f l')
  end.

End Synth.

Declare Scope synth_scope.
Delimit Scope synth_scope with synth.
Notation "x <- m ;; k" := (Synth.bind m (fun x => k))
  (at level 61, m at next level, right associativity) : synth_scope.
Notation "m ;; k" := (Synth.bind m (fun _ => k))
  (at level 61, right associativity) : synth_scope.
Open Scope synth_scope.

(** ** Deploy-time values and template strings *)

(** Attributes of constructs that resolve at deployment. *)
Inductive Token :=
| tableName (id : string)
| functionArn (id : string)
| repositoryUri (id : string)
| restApiId (id : string)
| restApiUrl (id : string)
| distributionDomainName (id : string)
| loadBalancerDnsName (id : string)
| stackRegion.

(** A TypeScript template literal or a shell word: literal text mixed
    with references. *)
Inductive Piece (R : Type) :=
| Lit (s : string)
| Ref (r : R).
Arguments Lit {R} s.
Arguments Ref {R} r.

Definition TemplateString := list (Piece Token).

(** ** Storage *)

Inductive RemovalPolicy := DESTROY | RETAIN.
Inductive AttributeType := STRING | NUMBER | BINARY.

Record BlockPublicAccess := {
  blockPublicAcls : bool;
  blockPublicPolicy : bool;
  ignorePublicAcls : bool;
  restrictPublicBuckets : bool
}.

Record Bucket := {
  bucketId : string;
  websiteIndexDocument : string;
  blockPublicAccess : option BlockPublicAccess;
  publicReadAccess : option bool;
  bucketRemovalPolicy : RemovalPolicy
}.

Record Table := {
  tableId : string;
  partitionKey : string * AttributeType;
  tableRemovalPolicy : RemovalPolicy
}.

Record Repository := { repositoryId : string }.

(** ** Compute *)

Definition Environment := list (string * Token).

Inductive Runtime := NODEJS_16_X.

Record Function := {
  functionId : string;
  runtime : Runtime;
  handler : string;
  code : string;
  functionEnvironment : Environment
}.

Record Vpc := { vpcId : string; maxAzs : nat }.
Record Cluster := { clusterId : string; clusterVpc : string }.

Record FargateTaskDefinition := {
  taskDefinitionId : string;
  memoryLimitMiB : nat;
  cpu : nat
}.

Record ContainerDefinition := {
  containerName : string;
  containerTask : string;
  image : string;
  loggingStreamPrefix : string;
  containerEnvironment : Environment
}.

Record FargateService := {
  serviceId : string;
  serviceCluster : string;
  serviceTaskDefinition : string;
  publicLoadBalancer : bool
}.

(** ** Identities, resources and policy statements *)

(** What a grant is given to: [productsFunction] (the function's
    execution role), [taskDefinition.taskRole], [buildProject.role]. *)
Inductive Grantee :=
| FunctionRole (functionId : string)
| TaskRole (taskDefinitionId : string)
| ProjectRole (projectId : string).

(** Resource identifiers a statement is scoped to. *)
Inductive Arn :=
| tableArn (id : string)
| repositoryArn (id : string).

(** Modelled from the spec: the actions that [grantReadWriteData] and
    [grantPullPush] expand to are fixed inside aws-cdk-lib, which is not
    part of the repository; they are kept at the granularity the method
    names and the specification give them (read and write data actions,
    pull and push).  Actions listed literally in the source are
    [IamAction]. *)
Inductive Action :=
| ReadData
| WriteData
| Pull
| Push
| IamAction (name : string).

Record PolicyStatement := {
  principal : Grantee;
  actions : list Action;
  resources : list Arn
}.

(** ** Gateway *)

Record RestApi := { apiId : string; restApiName : string }.

Inductive HttpMethod := GET | POST | PUT | PATCH | DELETE | HEAD | OPTIONS.

(** [resource.addMethod(verb, new LambdaIntegration(fn))] *)
Record ApiMethod := {
  methodResource : string;
  httpMethod : HttpMethod;
  lambdaIntegration : string
}.

(** ** Edge distribution *)

Inductive Origin :=
| S3Origin (bucket : string)
| HttpOrigin (domainName : TemplateString)
| LoadBalancerV2Origin (service : string).

Inductive AllowedMethods := ALLOW_GET_HEAD | ALLOW_GET_HEAD_OPTIONS | ALLOW_ALL.
Inductive ViewerProtocolPolicy := HTTPS_ONLY | REDIRECT_TO_HTTPS | ALLOW_ALL_PROTOCOLS.
Inductive CachePolicy := CACHING_OPTIMIZED | CACHING_DISABLED.

(** [BehaviorOptions]; a property the source leaves out is [None]. *)
Record Behavior := {
  origin : Origin;
  allowedMethods : option AllowedMethods;
  viewerProtocolPolicy : option ViewerProtocolPolicy;
  cachePolicy : option CachePolicy
}.

(** [additionalBehaviors] is an object literal; its keys are kept in
    the order they are written. *)
Record Distribution := {
  distributionId : string;
  defaultBehavior : Behavior;
  additionalBehaviors : list (string * Behavior)
}.

Record CfnOutput := {
  outputId : string;
  outputValue : TemplateString;
  outputDescription : string
}.

(** ** Build specification *)

(** A shell word: literal text and [$NAME] references, unquoted. *)
Definition Word := list (Piece string).

(** The command lines of the build specification, parsed by hand.
    [Echo msg] is [echo "msg"];
    [EcrLogin r reg] is
    [aws ecr get-login-password --region r | docker login --username AWS --password-stdin reg];
    [PrintfTo fmt args file] is [printf 'fmt' args > file]. *)
Inductive Command :=
| Echo (msg : string)
| NpmInstall
| EcrLogin (region registry : Word)
| DockerBuild (tag : Word) (context : string)
| DockerTag (source target : Word)
| DockerPush (ref : Word)
| PrintfTo (format : string) (args : list Word) (file : string).

Record Phases := {
  install : list Command;
  pre_build : list Command;
  build : list Command;
  post_build : list Command
}.

(** [artifacts.files]: a list of file names, or a single glob. *)
Inductive ArtifactFiles :=
| Files (names : list string)
| Pattern (glob : string).

Record BuildSpec := {
  version : string;
  phases : Phases;
  artifacts : ArtifactFiles
}.

Inductive BuildImage := STANDARD_5_0.

Record PipelineProject := {
  projectId : string;
  buildImage : BuildImage;
  privileged : bool;
  buildSpec : BuildSpec;
  environmentVariables : list (string * Token)
}.

(** ** Pipeline *)

Record Artifact := { artifactName : string }.

Inductive PipelineAction :=
| GitHubSourceAction (actionName owner repo oauthToken : string)
    (output : Artifact) (branch : string)
| CodeBuildAction (actionName project : string)
    (input : Artifact) (outputs : list Artifact)
| EcsDeployAction (actionName service : string) (input : Artifact)
| LambdaInvokeAction (actionName lambda : string)
    (userParameters : list (string * Token)).

Record StageProps := {
  stageName : string;
  stageActions : list PipelineAction
}.

Record Pipeline := {
  pipelineId : string;
  pipelineName : string;
  stages : list StageProps
}.

(** ** The template under construction *)

Inductive Construct :=
| CBucket (b : Bucket)
| CTable (t : Table)
| CRepository (r : Repository)
| CFunction (f : Function)
| CVpc (v : Vpc)
| CCluster (c : Cluster)
| CTaskDefinition (t : FargateTaskDefinition)
| CService (s : FargateService)
| CRestApi (a : RestApi)
| CDistribution (d : Distribution)
| COutput (o : CfnOutput)
| CProject (p : PipelineProject)
| CPipeline (p : Pipeline).

Record Template := {
  constructs : list Construct;
  policies : list PolicyStatement;
  apiResources : list string;
  apiMethods : list ApiMethod;
  containers : list ContainerDefinition;
  portMappings : list (string * nat)
}.

Definition emptyTemplate : Template :=
  {| constructs := []; policies := []; apiResources := []; apiMethods := [];
     containers := []; portMappings := [] |}.

Definition Cdk (A : Type) : Type := Synth.M Template A.

(** [new X(this, id, props)]: the construct becomes a child of the stack. *)
Definition register (c : Construct) : Cdk unit :=
  Synth.modify (fun t =>
    {| constructs := constructs t ++ [c]; policies := policies t;
       apiResources := apiResources t; apiMethods := apiMethods t;
       containers := containers t; portMappings := portMappings t |}).

Definition grantee_eqb (a b : Grantee) : bool :=
  match a, b with
  | FunctionRole x, FunctionRole y => String.eqb x y
  | TaskRole x, TaskRole y => String.eqb x y
  | ProjectRole x, ProjectRole y => String.eqb x y
  | _, _ => false
  end.

Definition action_eqb (a b : Action) : bool :=
  match a, b with
  | ReadData, ReadData => true
  | WriteData, WriteData => true
  | Pull, Pull => true
  | Push, Push => true
  | IamAction x, IamAction y => String.eqb x y
  | _, _ => false
  end.

Definition arn_eqb (a b : Arn) : bool :=
  match a, b with
  | tableArn x, tableArn y => String.eqb x y
  | repositoryArn x, repositoryArn y => String.eqb x y
  | _, _ => false
  end.

Fixpoint list_eqb {A} (eqb : A -> A -> bool) (l1 l2 : list A) : bool :=
  match l1, l2 with
  | [], [] => true
  | a :: l1', b :: l2' => eqb a b && list_eqb eqb l1' l2'
  | _, _ => false
  end.

Definition statement_eqb (a b : PolicyStatement) : bool :=
  grantee_eqb (principal a) (principal b)
  && list_eqb action_eqb (actions a) (actions b)
  && list_eqb arn_eqb (resources a) (resources b).

(** Modelled from the spec: the policy document, which belongs to
    aws-cdk-lib and not to the repository, holds a statement once; a
    statement that is already there is not added a second time (no
    accumulation, no duplicate grants). *)
Definition addStatement (st : PolicyStatement) (ps : list PolicyStatement)
    : list PolicyStatement :=
  if existsb (statement_eqb st) ps then ps else ps ++ [st].

(** Adding a statement to the policy of an identity. *)
Definition addToPrincipalPolicy (st : PolicyStatement) : Cdk unit :=
  Synth.modify (fun t =>
    {| constructs := constructs t; policies := addStatement st (policies t);
       apiResources := apiResources t; apiMethods := apiMethods t;
       containers := containers t; portMappings := portMappings t |}).

(** Modelled from the spec: [table.grantReadWriteData(grantee)], whose
    body is in aws-cdk-lib and not in the repository; the call gives the
    grantee the read and write data actions on the identifier of the
    receiving table. *)
Definition grantReadWriteData (t : Table) (g : Grantee) : Cdk unit :=
  addToPrincipalPolicy
    {| principal := g; actions := [ReadData; WriteData];
       resources := [tableArn (tableId t)] |}.

(** Modelled from the spec: [repository.grantPullPush(grantee)], whose
    body is in aws-cdk-lib and not in the repository; the call gives the
    grantee pull and push on the identifier of the receiving repository. *)
Definition grantPullPush (r : Repository) (g : Grantee) : Cdk unit :=
  addToPrincipalPolicy
    {| principal := g; actions := [Pull; Push];
       resources := [repositoryArn (repositoryId r)] |}.

(** [project.addToRolePolicy(new iam.PolicyStatement({actions, resources}))] *)
Definition addToRolePolicy (p : PipelineProject) (acts : list Action)
    (res : list Arn) : Cdk unit :=
  addToPrincipalPolicy
    {| principal := ProjectRole (projectId p); actions := acts; resources := res |}.

(** [api.root.addResource(name)] returns the resource, here its name. *)
Definition addResource (name : string) : Cdk string :=
  fun t =>
    (name,
     {| constructs := constructs t; policies := policies t;
        apiResources := apiResources t ++ [name]; apiMethods := apiMethods t;
        containers := containers t; portMappings := portMappings t |}).

(** [resource.addMethod(verb, new apigateway.LambdaIntegration(fn))] *)
Definition addMethod (resource : string) (verb : HttpMethod) (fn : Function)
    : Cdk unit :=
  Synth.modify (fun t =>
    {| constructs := constructs t; policies := policies t;
       apiResources := apiResources t;
       apiMethods := apiMethods t ++
         [{| methodResource := resource; httpMethod := verb;
             lambdaIntegration := functionId fn |}];
       containers := containers t; portMappings := portMappings t |}).

(** [taskDefinition.addContainer(name, props)] returns the container. *)
Definition addContainer (td : FargateTaskDefinition) (name : string)
    (repo : Repository) (prefix : string) (env : Environment)
    : Cdk ContainerDefinition :=
  fun t =>
    let c := {| containerName := name; containerTask := taskDefinitionId td;
                image := repositoryId repo; loggingStreamPrefix := prefix;
                containerEnvironment := env |} in
    (c,
     {| constructs := constructs t; policies := policies t;
        apiResources := apiResources t; apiMethods := apiMethods t;
        containers := containers t ++ [c]; portMappings := portMappings t |}).

(** [container.addPortMappings({containerPort})] *)
Definition addPortMappings (c : ContainerDefinition) (port : nat) : Cdk unit :=
  Synth.modify (fun t =>
    {| constructs := constructs t; policies := policies t;
       apiResources := apiResources t; apiMethods := apiMethods t;
       containers := containers t;
       portMappings := portMappings t ++ [(containerName c, port)] |}).

(** Running a stack constructor on an empty scope. *)
Definition synth (stack : Cdk unit) : Template := Synth.exec stack emptyTemplate.

(** * The three stacks *)

(** The double-quote character of the descriptor written by the build. *)
Definition dq : string := String (ascii_of_nat 34) EmptyString.

(** ** [cdk-woocommerce/lib/cdk-woocommerce-stack.ts] *)

Module CdkWoocommerceStack.

Definition wooCommerceAssets : Bucket :=
  {| bucketId := "WooCommerceAssets";
     websiteIndexDocument := "index.html";
     blockPublicAccess :=
       Some {| blockPublicAcls := false; blockPublicPolicy := false;
               ignorePublicAcls := false; restrictPublicBuckets := false |};
     publicReadAccess := None;
     bucketRemovalPolicy := DESTROY |}.

Definition productsTable : Table :=
  {| tableId := "ProductsTable"; partitionKey := ("productId", STRING);
     tableRemovalPolicy := DESTROY |}.

Definition ordersTable : Table :=
  {| tableId := "OrdersTable"; partitionKey := ("orderId", STRING);
     tableRemovalPolicy := DESTROY |}.

Definition cartTable : Table :=
  {| tableId := "CartTable"; partitionKey := ("cartId", STRING);
     tableRemovalPolicy := DESTROY |}.

Definition productsFunction : Function :=
  {| functionId := "ProductsFunction"; runtime := NODEJS_16_X;
     handler := "index.handler"; code := "lambda/products";
     functionEnvironment := [("PRODUCTS_TABLE", tableName (tableId productsTable))] |}.

Definition ordersFunction : Function :=
  {| functionId := "OrdersFunction"; runtime := NODEJS_16_X;
     handler := "index.handler"; code := "lambda/orders";
     functionEnvironment := [("ORDERS_TABLE", tableName (tableId ordersTable))] |}.

Definition cartFunction : Function :=
  {| functionId := "CartFunction"; runtime := NODEJS_16_X;
     handler := "index.handler"; code := "lambda/cart";
     functionEnvironment := [("CART_TABLE", tableName (tableId cartTable))] |}.

Definition api : RestApi :=
  {| apiId := "WooCommerceApi"; restApiName := "Woo-Commerce API" |}.

Definition apiOrigin : Origin :=
  HttpOrigin [Ref (restApiId (apiId api)); Lit ".execute-api.";
              Ref stackRegion; Lit ".amazonaws.com"].

Definition distribution : Distribution :=
  {| distributionId := "Distribution";
     defaultBehavior :=
       {| origin := S3Origin (bucketId wooCommerceAssets);
          allowedMethods := None;
          viewerProtocolPolicy := Some REDIRECT_TO_HTTPS;
          cachePolicy := None |};
     additionalBehaviors :=
       [("/api/products/*",
         {| origin := apiOrigin;
            allowedMethods := Some ALLOW_ALL;
            viewerProtocolPolicy := Some HTTPS_ONLY;
            cachePolicy := Some CACHING_OPTIMIZED |});
        ("/api/orders/*",
         {| origin := apiOrigin;
            allowedMethods := Some ALLOW_ALL;
            viewerProtocolPolicy := Some HTTPS_ONLY;
            cachePolicy := Some CACHING_DISABLED |});
        ("/api/cart/*",
         {| origin := apiOrigin;
            allowedMethods := Some ALLOW_ALL;
            viewerProtocolPolicy := Some HTTPS_ONLY;
            cachePolicy := Some CACHING_DISABLED |})] |}.

Definition constructor : Cdk unit :=
  register (CBucket wooCommerceAssets) ;;
  register (CTable productsTable) ;;
  register (CTable ordersTable) ;;
  register (CTable cartTable) ;;
  register (CFunction productsFunction) ;;
  register (CFunction ordersFunction) ;;
  register (CFunction cartFunction) ;;
  grantReadWriteData productsTable (FunctionRole (functionId productsFunction)) ;;
  grantReadWriteData ordersTable (FunctionRole (functionId ordersFunction)) ;;
  grantReadWriteData cartTable (FunctionRole (functionId cartFunction)) ;;
  register (CRestApi api) ;;
  productsResource <- addResource "products" ;;
  addMethod productsResource GET productsFunction ;;
  addMethod productsResource POST productsFunction ;;
  ordersResource <- addResource "orders" ;;
  addMethod ordersResource GET ordersFunction ;;
  addMethod ordersResource POST ordersFunction ;;
  cartResource <- addResource "cart" ;;
  addMethod cartResource GET cartFunction ;;
  addMethod cartResource POST cartFunction ;;
  register (CDistribution distribution) ;;
  register (COutput
    {| outputId := "CloudFrontURL";
       outputValue := [Lit "https://";
                       Ref (distributionDomainName (distributionId distribution))];
       outputDescription := "CloudFront URL" |}) ;;
  register (COutput
    {| outputId := "APIGatewayURL";
       outputValue := [Ref (restApiUrl (apiId api))];
       outputDescription := "API Gateway URL" |}).

End CdkWoocommerceStack.

(** ** [cdk-woocommerce/lib/cdk-woocommerce-cicd-stack.ts] *)

Module CdkWoocommerceStack1.

Definition wooCommerceAssets : Bucket :=
  {| bucketId := "WooCommerceAssets";
     websiteIndexDocument := "index.html";
     blockPublicAccess := None;
     publicReadAccess := Some true;
     bucketRemovalPolicy := DESTROY |}.

Definition productsTable : Table :=
  {| tableId := "ProductsTable"; partitionKey := ("productId", STRING);
     tableRemovalPolicy := DESTROY |}.

Definition ordersTable : Table :=
  {| tableId := "OrdersTable"; partitionKey := ("orderId", STRING);
     tableRemovalPolicy := DESTROY |}.

Definition cartTable : Table :=
  {| tableId := "CartTable"; partitionKey := ("cartId", STRING);
     tableRemovalPolicy := DESTROY |}.

Definition ecrRepository : Repository := {| repositoryId := "WooCommerceRepo" |}.

Definition productsFunction : Function :=
  {| functionId := "ProductsFunction"; runtime := NODEJS_16_X;
     handler := "index.handler"; code := "lambda/products";
     functionEnvironment := [("PRODUCTS_TABLE", tableName (tableId productsTable))] |}.

Definition ordersFunction : Function :=
  {| functionId := "OrdersFunction"; runtime := NODEJS_16_X;
     handler := "index.handler"; code := "lambda/orders";
     functionEnvironment := [("ORDERS_TABLE", tableName (tableId ordersTable))] |}.

Definition cartFunction : Function :=
  {| functionId := "CartFunction"; runtime := NODEJS_16_X;
     handler := "index.handler"; code := "lambda/cart";
     functionEnvironment := [("CART_TABLE", tableName (tableId cartTable))] |}.

Definition api : RestApi :=
  {| apiId := "WooCommerceApi"; restApiName := "Woo-Commerce API" |}.

Definition apiOrigin : Origin :=
  HttpOrigin [Ref (restApiId (apiId api)); Lit ".execute-api.";
              Ref stackRegion; Lit ".amazonaws.com"].

Definition distribution : Distribution :=
  {| distributionId := "Distribution";
     defaultBehavior :=
       {| origin := S3Origin (bucketId wooCommerceAssets);
          allowedMethods := None;
          viewerProtocolPolicy := Some REDIRECT_TO_HTTPS;
          cachePolicy := None |};
     additionalBehaviors :=
       [("/api/products/*",
         {| origin := apiOrigin;
            allowedMethods := Some ALLOW_ALL;
            viewerProtocolPolicy := Some HTTPS_ONLY;
            cachePolicy := Some CACHING_OPTIMIZED |});
        ("/api/orders/*",
         {| origin := apiOrigin;
            allowedMethods := Some ALLOW_ALL;
            viewerProtocolPolicy := Some HTTPS_ONLY;
            cachePolicy := Some CACHING_DISABLED |});
        ("/api/cart/*",
         {| origin := apiOrigin;
            allowedMethods := Some ALLOW_ALL;
            viewerProtocolPolicy := Some HTTPS_ONLY;
            cachePolicy := Some CACHING_DISABLED |})] |}.

Definition sourceOutput : Artifact := {| artifactName := "sourceOutput" |}.
Definition buildOutput : Artifact := {| artifactName := "buildOutput" |}.

Definition sourceAction : PipelineAction :=
  GitHubSourceAction "GitHub_Source" "your-github-username" "your-repo-name"
    "your-github-token" sourceOutput "main".

(** The shell word [$REPOSITORY_URI:tag]. *)
Definition repositoryTag (tag : Word) : Word := Ref "REPOSITORY_URI" :: Lit ":" :: tag.

Definition buildProject : PipelineProject :=
  {| projectId := "BuildProject";
     buildImage := STANDARD_5_0;
     privileged := true;
     buildSpec :=
       {| version := "0.2";
          phases :=
            {| install :=
                 [Echo "Installing dependencies";
                  NpmInstall];
               pre_build :=
                 [Echo "Logging in to Amazon ECR";
                  EcrLogin [Ref "AWS_DEFAULT_REGION"] [Ref "REPOSITORY_URI"]];
               build :=
                 [Echo "Building Docker image";
                  DockerBuild (repositoryTag [Lit "latest"]) ".";
                  DockerTag (repositoryTag [Lit "latest"])
                    (repositoryTag [Ref "CODEBUILD_RESOLVED_SOURCE_VERSION"])];
               post_build :=
                 [Echo "Pushing Docker image";
                  DockerPush (repositoryTag [Lit "latest"]);
                  DockerPush (repositoryTag [Ref "CODEBUILD_RESOLVED_SOURCE_VERSION"])] |};
          artifacts := Pattern "**/*" |};
     environmentVariables :=
       [("REPOSITORY_URI", repositoryUri (repositoryId ecrRepository))] |}.

Definition buildAction : PipelineAction :=
  CodeBuildAction "CodeBuild" (projectId buildProject) sourceOutput [buildOutput].

Definition deployAction : PipelineAction :=
  LambdaInvokeAction "Deploy" (functionId productsFunction)
    [("productsFunctionArn", functionArn (functionId productsFunction));
     ("ordersFunctionArn", functionArn (functionId ordersFunction));
     ("cartFunctionArn", functionArn (functionId cartFunction))].

Definition pipeline : Pipeline :=
  {| pipelineId := "Pipeline";
     pipelineName := "WooCommercePipeline";
     stages :=
       [{| stageName := "Source"; stageActions := [sourceAction] |};
        {| stageName := "Build"; stageActions := [buildAction] |};
        {| stageName := "Deploy"; stageActions := [deployAction] |}] |}.

Definition constructor : Cdk unit :=
  register (CBucket wooCommerceAssets) ;;
  register (CTable productsTable) ;;
  register (CTable ordersTable) ;;
  register (CTable cartTable) ;;
  register (CRepository ecrRepository) ;;
  register (CFunction productsFunction) ;;
  register (CFunction ordersFunction) ;;
  register (CFunction cartFunction) ;;
  grantReadWriteData productsTable (FunctionRole (functionId productsFunction)) ;;
  grantReadWriteData ordersTable (FunctionRole (functionId ordersFunction)) ;;
  grantReadWriteData cartTable (FunctionRole (functionId cartFunction)) ;;
  register (CRestApi api) ;;
  productsResource <- addResource "products" ;;
  addMethod productsResource GET productsFunction ;;
  addMethod productsResource POST productsFunction ;;
  ordersResource <- addResource "orders" ;;
  addMethod ordersResource GET ordersFunction ;;
  addMethod ordersResource POST ordersFunction ;;
  cartResource <- addResource "cart" ;;
  addMethod cartResource GET cartFunction ;;
  addMethod cartResource POST cartFunction ;;
  register (CDistribution distribution) ;;
  register (COutput
    {| outputId := "CloudFrontURL";
       outputValue := [Lit "https://";
                       Ref (distributionDomainName (distributionId distribution))];
       outputDescription := "CloudFront URL" |}) ;;
  register (COutput
    {| outputId := "APIGatewayURL";
       outputValue := [Ref (restApiUrl (apiId api))];
       outputDescription := "API Gateway URL" |}) ;;
  register (CProject buildProject) ;;
  register (CPipeline pipeline) ;;
  grantPullPush ecrRepository (ProjectRole (projectId buildProject)) ;;
  addToRolePolicy buildProject
    [IamAction "ecr:GetDownloadUrlForLayer"; IamAction "ecr:BatchGetImage";
     IamAction "ecr:CompleteLayerUpload"]
    [repositoryArn (repositoryId ecrRepository)].

End CdkWoocommerceStack1.

(** ** [cdk-woocommerce-cicd/lib/cdk-woocommerce-cicd-stack.ts] *)

Module CdkWoocommerceCicdStack.

Definition wooCommerceAssets : Bucket :=
  {| bucketId := "WooCommerceAssets";
     websiteIndexDocument := "index.html";
     blockPublicAccess :=
       Some {| blockPublicAcls := false; blockPublicPolicy := false;
               ignorePublicAcls := false; restrictPublicBuckets := false |};
     publicReadAccess := None;
     bucketRemovalPolicy := DESTROY |}.

Definition productsTable : Table :=
  {| tableId := "ProductsTable"; partitionKey := ("productId", STRING);
     tableRemovalPolicy := DESTROY |}.

Definition ordersTable : Table :=
  {| tableId := "OrdersTable"; partitionKey := ("orderId", STRING);
     tableRemovalPolicy := DESTROY |}.

Definition cartTable : Table :=
  {| tableId := "CartTable"; partitionKey := ("cartId", STRING);
     tableRemovalPolicy := DESTROY |}.

Definition ecrRepository : Repository := {| repositoryId := "WooCommerceRepo" |}.

Definition vpc : Vpc := {| vpcId := "WooCommerceVPC"; maxAzs := 2 |}.

Definition cluster : Cluster :=
  {| clusterId := "WooCommerceCluster"; clusterVpc := vpcId vpc |}.

Definition taskDefinition : FargateTaskDefinition :=
  {| taskDefinitionId := "WooCommerceTaskDef"; memoryLimitMiB := 512; cpu := 256 |}.

Definition fargateService : FargateService :=
  {| serviceId := "WooCommerceService";
     serviceCluster := clusterId cluster;
     serviceTaskDefinition := taskDefinitionId taskDefinition;
     publicLoadBalancer := true |}.

Definition distribution : Distribution :=
  {| distributionId := "Distribution";
     defaultBehavior :=
       {| origin := S3Origin (bucketId wooCommerceAssets);
          allowedMethods := None;
          viewerProtocolPolicy := Some REDIRECT_TO_HTTPS;
          cachePolicy := None |};
     additionalBehaviors :=
       [("/api/*",
         {| origin := LoadBalancerV2Origin (serviceId fargateService);
            allowedMethods := Some ALLOW_ALL;
            viewerProtocolPolicy := Some HTTPS_ONLY;
            cachePolicy := Some CACHING_DISABLED |})] |}.

Definition sourceOutput : Artifact := {| artifactName := "sourceOutput" |}.
Definition buildOutput : Artifact := {| artifactName := "buildOutput" |}.

Definition sourceAction : PipelineAction :=
  GitHubSourceAction "GitHub_Source" "your-github-username" "your-repo-name"
    "your-github-token" sourceOutput "main".

(** The shell word [$REPOSITORY_URI:tag]. *)
Definition repositoryTag (tag : Word) : Word := Ref "REPOSITORY_URI" :: Lit ":" :: tag.

(** [[{"name":"WooCommerceContainer","imageUri":"%s"}]] *)
Definition imageDefinitionsFormat : string :=
  "[{" ++ dq ++ "name" ++ dq ++ ":" ++ dq ++ "WooCommerceContainer" ++ dq ++ ","
       ++ dq ++ "imageUri" ++ dq ++ ":" ++ dq ++ "%s" ++ dq ++ "}]".

Definition buildProject : PipelineProject :=
  {| projectId := "BuildProject";
     buildImage := STANDARD_5_0;
     privileged := true;
     buildSpec :=
       {| version := "0.2";
          phases :=
            {| install :=
                 [Echo "Installing dependencies";
                  NpmInstall];
               pre_build :=
                 [Echo "Logging in to Amazon ECR";
                  EcrLogin [Ref "AWS_DEFAULT_REGION"] [Ref "REPOSITORY_URI"]];
               build :=
                 [Echo "Building Docker image";
                  DockerBuild (repositoryTag [Lit "latest"]) ".";
                  DockerTag (repositoryTag [Lit "latest"])
                    (repositoryTag [Ref "CODEBUILD_RESOLVED_SOURCE_VERSION"])];
               post_build :=
                 [Echo "Pushing Docker image";
                  DockerPush (repositoryTag [Lit "latest"]);
                  DockerPush (repositoryTag [Ref "CODEBUILD_RESOLVED_SOURCE_VERSION"]);
                  Echo "Writing image definitions file";
                  PrintfTo imageDefinitionsFormat
                    [repositoryTag [Ref "CODEBUILD_RESOLVED_SOURCE_VERSION"]]
                    "imagedefinitions.json"] |};
          artifacts := Files ["imagedefinitions.json"] |};
     environmentVariables :=
       [("REPOSITORY_URI", repositoryUri (repositoryId ecrRepository))] |}.

Definition buildAction : PipelineAction :=
  CodeBuildAction "CodeBuild" (projectId buildProject) sourceOutput [buildOutput].

Definition deployAction : PipelineAction :=
  EcsDeployAction "Deploy" (serviceId fargateService) buildOutput.

Definition pipeline : Pipeline :=
  {| pipelineId := "Pipeline";
     pipelineName := "WooCommercePipeline";
     stages :=
       [{| stageName := "Source"; stageActions := [sourceAction] |};
        {| stageName := "Build"; stageActions := [buildAction] |};
        {| stageName := "Deploy"; stageActions := [deployAction] |}] |}.

Definition constructor : Cdk unit :=
  register (CBucket wooCommerceAssets) ;;
  register (CTable productsTable) ;;
  register (CTable ordersTable) ;;
  register (CTable cartTable) ;;
  register (CRepository ecrRepository) ;;
  register (CVpc vpc) ;;
  register (CCluster cluster) ;;
  register (CTaskDefinition taskDefinition) ;;
  container <- addContainer taskDefinition "WooCommerceContainer" ecrRepository
                 "WooCommerce"
                 [("PRODUCTS_TABLE", tableName (tableId productsTable));
                  ("ORDERS_TABLE", tableName (tableId ordersTable));
                  ("CART_TABLE", tableName (tableId cartTable))] ;;
  addPortMappings container 80 ;;
  register (CService fargateService) ;;
  grantReadWriteData productsTable (TaskRole (taskDefinitionId taskDefinition)) ;;
  grantReadWriteData ordersTable (TaskRole (taskDefinitionId taskDefinition)) ;;
  grantReadWriteData cartTable (TaskRole (taskDefinitionId taskDefinition)) ;;
  register (CDistribution distribution) ;;
  register (COutput
    {| outputId := "CloudFrontURL";
       outputValue := [Lit "https://";
                       Ref (distributionDomainName (distributionId distribution))];
       outputDescription := "CloudFront URL" |}) ;;
  register (COutput
    {| outputId := "LoadBalancerURL";
       outputValue := [Ref (loadBalancerDnsName (serviceId fargateService))];
       outputDescription := "Load Balancer URL" |}) ;;
  register (CProject buildProject) ;;
  register (CPipeline pipeline) ;;
  grantPullPush ecrRepository (ProjectRole (projectId buildProject)) ;;
  addToRolePolicy buildProject
    [IamAction "ecr:GetDownloadUrlForLayer"; IamAction "ecr:BatchGetImage";
     IamAction "ecr:CompleteLayerUpload"]
    [repositoryArn (repositoryId ecrRepository)].

End CdkWoocommerceCicdStack.

(** The three topologies. *)
Definition gatewayTopology : Template := synth CdkWoocommerceStack.constructor.
Definition gatewayPipelineTopology : Template := synth CdkWoocommerceStack1.constructor.
Definition containerTopology : Template := synth CdkWoocommerceCicdStack.constructor.

Definition topologies : list Template :=
  [gatewayTopology; gatewayPipelineTopology; containerTopology].

(** * Reading the synthesized template *)

Definition distributions (t : Template) : list Distribution :=
  flat_map (fun c => match c with CDistribution d => [d] | _ => [] end) (constructs t).

Definition pipelines (t : Template) : list Pipeline :=
  flat_map (fun c => match c with CPipeline p => [p] | _ => [] end) (constructs t).

Definition projects (t : Template) : list PipelineProject :=
  flat_map (fun c => match c with CProject p => [p] | _ => [] end) (constructs t).

Definition functions (t : Template) : list Function :=
  flat_map (fun c => match c with CFunction f => [f] | _ => [] end) (constructs t).

Definition tables (t : Template) : list Table :=
  flat_map (fun c => match c with CTable x => [x] | _ => [] end) (constructs t).

Definition buckets (t : Template) : list Bucket :=
  flat_map (fun c => match c with CBucket b => [b] | _ => [] end) (constructs t).

Definition repositories (t : Template) : list Repository :=
  flat_map (fun c => match c with CRepository r => [r] | _ => [] end) (constructs t).

(** ** Permissions *)

(** The statements attached to one identity. *)
Definition statementsOf (t : Template) (g : Grantee) : list PolicyStatement :=
  filter (fun st => grantee_eqb (principal st) g) (policies t).

Definition grantedActions (t : Template) (g : Grantee) : list Action :=
  flat_map actions (statementsOf t g).

Definition grantedResources (t : Template) (g : Grantee) : list Arn :=
  flat_map resources (statementsOf t g).

Definition grantsReadWrite (st : PolicyStatement) : bool :=
  existsb (fun a => match a with ReadData => true | _ => false end) (actions st) &&
  existsb (fun a => match a with WriteData => true | _ => false end) (actions st).

(** Tables an identity may read and write. *)
Definition grantedTables (t : Template) (g : Grantee) : list string :=
  flat_map (fun st =>
              if grantsReadWrite st then
                flat_map (fun r => match r with tableArn id => [id] | _ => [] end)
                         (resources st)
              else [])
           (statementsOf t g).

(** A [reads_writes] edge: the identity of a compute unit and a table,
    one per [table.grantReadWriteData(unit)] of a constructor. *)
Definition Edge : Type := Grantee * Table.

(** Issuing the grant of every edge, in order. *)
Definition grantAll (G : list Edge) : Cdk unit :=
  Synth.forEach (fun e => grantReadWriteData (snd e) (fst e)) G.

(** The permission derivation: the statements that result from the
    grants of the edges on a scope that starts empty. *)
Definition derive (G : list Edge) : list PolicyStatement :=
  policies (synth (grantAll G)).

(** The statement one edge stands for. *)
Definition readWriteGrant (e : Edge) : PolicyStatement :=
  {| principal := fst e; actions := [ReadData; WriteData];
     resources := [tableArn (tableId (snd e))] |}.

(** The statements of a policy after the grants of the edges. *)
Definition grantStatements (G : list Edge) (ps : list PolicyStatement)
    : list PolicyStatement :=
  fold_left (fun acc e => addStatement (readWriteGrant e) acc) G ps.

(** The identity of the build stage, [buildProject.role]. *)
Definition buildIdentity : Grantee := ProjectRole "BuildProject".

(** The topologies with a pipeline. *)
Definition pipelineTopologies : list Template :=
  [gatewayPipelineTopology; containerTopology].

(** The edges of the three constructors, in the order of the calls. *)
Definition gatewayEdges : list Edge :=
  [(FunctionRole "ProductsFunction", CdkWoocommerceStack.productsTable);
   (FunctionRole "OrdersFunction", CdkWoocommerceStack.ordersTable);
   (FunctionRole "CartFunction", CdkWoocommerceStack.cartTable)].

Definition gatewayPipelineEdges : list Edge :=
  [(FunctionRole "ProductsFunction", CdkWoocommerceStack1.productsTable);
   (FunctionRole "OrdersFunction", CdkWoocommerceStack1.ordersTable);
   (FunctionRole "CartFunction", CdkWoocommerceStack1.cartTable)].

Definition containerEdges : list Edge :=
  [(TaskRole "WooCommerceTaskDef", CdkWoocommerceCicdStack.productsTable);
   (TaskRole "WooCommerceTaskDef", CdkWoocommerceCicdStack.ordersTable);
   (TaskRole "WooCommerceTaskDef", CdkWoocommerceCicdStack.cartTable)].

(** The statements of a template that are scoped to tables. *)
Definition tableStatements (t : Template) : list PolicyStatement :=
  filter (fun st => existsb (fun r => match r with tableArn _ => true | _ => false end)
                            (resources st))
         (policies t).

(** ** Compute units and their environment *)

Inductive ComputeUnit :=
| FunctionUnit (f : Function)
| ContainerUnit (c : ContainerDefinition).

Definition computeUnits (t : Template) : list ComputeUnit :=
  map FunctionUnit (functions t) ++ map ContainerUnit (containers t).

(** The execution identity of a unit: a function's role, or the task
    role of the task definition a container belongs to. *)
Definition identity (u : ComputeUnit) : Grantee :=
  match u with
  | FunctionUnit f => FunctionRole (functionId f)
  | ContainerUnit c => TaskRole (containerTask c)
  end.

Definition environment (u : ComputeUnit) : Environment :=
  match u with
  | FunctionUnit f => functionEnvironment f
  | ContainerUnit c => containerEnvironment c
  end.

(** Tables named by the values of an environment. *)
Definition namedTables (env : Environment) : list string :=
  flat_map (fun kv => match snd kv with tableName id => [id] | _ => [] end) env.

(** ** Routing *)

(** CloudFront path patterns: [*] stands for zero or more characters,
    [?] for exactly one, every other character for itself. *)
Fixpoint globMatch (pat s : string) {struct pat} : bool :=
  match pat with
  | EmptyString => match s with EmptyString => true | String _ _ => false end
  | String c pat' =>
      if Ascii.eqb c "*" then
        (fix star (s : string) : bool :=
           globMatch pat' s ||
           match s with EmptyString => false | String _ s' => star s' end) s
      else
        match s with
        | EmptyString => false
        | String d s' => (Ascii.eqb c "?" || Ascii.eqb c d) && globMatch pat' s'
        end
  end.

(** The rule set of a distribution: the additional behaviours in their
    order, then the default behaviour, which matches every path. *)
Definition rules (d : Distribution) : list (string * Behavior) :=
  additionalBehaviors d ++ [("*", defaultBehavior d)].

(** The first matching rule wins. *)
Definition resolve (d : Distribution) (path : string) : Behavior :=
  match find (fun r => globMatch (fst r) path) (additionalBehaviors d) with
  | Some r => snd r
  | None => defaultBehavior d
  end.

Definition stateChanging (m : HttpMethod) : bool :=
  match m with
  | POST | PUT | PATCH | DELETE => true
  | GET | HEAD | OPTIONS => false
  end.

(** A gateway resource that accepts a state-changing method. *)
Definition writeCapable (t : Template) (resource : string) : bool :=
  existsb (fun m => String.eqb (methodResource m) resource && stateChanging (httpMethod m))
          (apiMethods t).

(** Modelled from the spec: the externally visible paths of the gateway
    resource [resource] are those under [/api/<resource>/]; the source
    relates the two by name only. *)
Definition endpointPath (resource rest : string) : string :=
  "/api/" ++ resource ++ "/" ++ rest.

(** No path is matched by two rules with different cache policies,
    the default rule counted as a rule like the others. *)
Definition cachePoliciesAgree (d : Distribution) : Prop :=
  forall p1 b1 p2 b2 path,
    In (p1, b1) (rules d) -> In (p2, b2) (rules d) ->
    globMatch p1 path = true -> globMatch p2 path = true ->
    cachePolicy b1 = cachePolicy b2.

(** No path is matched by two of the additional behaviours. *)
Definition patternsExclusive (d : Distribution) : Prop :=
  forall r1 r2 path,
    In r1 (additionalBehaviors d) -> In r2 (additionalBehaviors d) ->
    globMatch (fst r1) path = true -> globMatch (fst r2) path = true ->
    r1 = r2.

(** Every write-capable endpoint resolves to a rule with caching disabled. *)
Definition writeEndpointsUncached (t : Template) : Prop :=
  forall d resource rest,
    In d (distributions t) -> writeCapable t resource = true ->
    cachePolicy (resolve d (endpointPath resource rest)) = Some CACHING_DISABLED.

(** * Pipeline executions *)

(** Modelled from the spec: the state machine of a pipeline execution.
    The constructors only declare the ordered stage list; the executor
    is the pipeline service, which is not part of the repository.  An
    execution starts in the first stage; a stage that succeeds hands over
    to the next one, the last one to [Succeeded]; a stage that fails
    moves the execution to [Failed]; [Succeeded] and [Failed] are
    terminal. *)
Inductive ExecState :=
| InStage (i : nat)
| Succeeded
| Failed.

(** Modelled from the spec: one transition of an execution of the
    pipeline [p], on the outcome [ok] of the stage it is in. *)
Definition advance (p : Pipeline) (s : ExecState) (ok : bool) : ExecState :=
  match s with
  | InStage i =>
      if ok then
        if Nat.ltb (S i) (length (stages p)) then InStage (S i) else Succeeded
      else Failed
  | Succeeded => Succeeded
  | Failed => Failed
  end.

(** Modelled from the spec: the states an execution goes through,
    given the outcome of each stage that is run (the executor is the
    pipeline service). *)
Fixpoint execute (p : Pipeline) (s : ExecState) (outcomes : list bool)
    : list ExecState :=
  match outcomes with
  | [] => [s]
  | ok :: rest => s :: execute p (advance p s ok) rest
  end.

Definition stageIndices (trace : list ExecState) : list nat :=
  flat_map (fun s => match s with InStage i => [i] | _ => [] end) trace.

(** The names of the stages visited along a trace. *)
Definition visitedStages (p : Pipeline) (trace : list ExecState) : list string :=
  flat_map (fun i => match nth_error (stages p) i with
                     | Some st => [stageName st]
                     | None => []
                     end)
           (stageIndices trace).

(** * The build stage *)

(** The command lines of a build specification in the order the phases
    run: install, pre_build, build, post_build. *)
Definition commands (b : BuildSpec) : list Command :=
  (install (phases b) ++ pre_build (phases b) ++ build (phases b) ++
   post_build (phases b))%list.

Definition isEcho (c : Command) : bool :=
  match c with Echo _ => true | _ => false end.

(** The command lines that do something besides printing. *)
Definition steps (b : BuildSpec) : list Command :=
  filter (fun c => negb (isEcho c)) (commands b).

(** Modelled from the spec: the runner of the build stage (the build
    service, not part of the repository).  Commands run one after the
    other; the first one that fails ends the run.  The result is the
    list of commands that were started and whether all succeeded. *)
Fixpoint runCommands (ok : Command -> bool) (cs : list Command)
    : list Command * bool :=
  match cs with
  | [] => ([], true)
  | c :: cs' =>
      if ok c then
        let (started, success) := runCommands ok cs' in (c :: started, success)
      else ([c], false)
  end.

(** ** Shell words *)

Definition ShellEnv := list (string * string).

Fixpoint getenv (env : ShellEnv) (k : string) : string :=
  match env with
  | [] => ""
  | (k', v) :: env' => if String.eqb k k' then v else getenv env' k
  end.

(** Parameter expansion of an unquoted word. *)
Definition substitute (env : ShellEnv) (w : Word) : string :=
  String.concat ""
    (map (fun p => match p with Lit s => s | Ref x => getenv env x end) w).

Definition isIFS (c : ascii) : bool :=
  Ascii.eqb c " " || Ascii.eqb c (ascii_of_nat 9) || Ascii.eqb c (ascii_of_nat 10).

Definition isGlobChar (c : ascii) : bool :=
  Ascii.eqb c "*" || Ascii.eqb c "?" || Ascii.eqb c "[".

Fixpoint anyChar (f : ascii -> bool) (s : string) : bool :=
  match s with
  | EmptyString => false
  | String c s' => f c || anyChar f s'
  end.

(** Field splitting: the expansion is cut at blanks, empty fields are
    dropped; [cur] is the field being read. *)
Fixpoint splitFields (s cur : string) : list string :=
  match s with
  | EmptyString => match cur with EmptyString => [] | _ => [cur] end
  | String c s' =>
      if isIFS c then
        match cur with
        | EmptyString => splitFields s' ""
        | _ => cur :: splitFields s' ""
        end
      else splitFields s' (cur ++ String c "")
  end.

(** The arguments an unquoted word expands to.  A field with a pattern
    character would be matched against the files of the working
    directory, which is outside this model: [None]. *)
Definition expand (env : ShellEnv) (w : Word) : option (list string) :=
  let s := substitute env w in
  if anyChar isGlobChar s then None else Some (splitFields s "").

Fixpoint expandAll (env : ShellEnv) (ws : list Word) : option (list string) :=
  match ws with
  | [] => Some []
  | w :: ws' =>
      match expand env w, expandAll env ws' with
      | Some a, Some b => Some (a ++ b)%list
      | _, _ => None
      end
  end.

(** One pass of [printf] over its format: every [%s] takes the next
    argument, or nothing when none is left. *)
Fixpoint printfOnce (fmt : string) (args : list string) : string * list string :=
  match fmt with
  | EmptyString => ("", args)
  | String "%" (String "s" fmt') =>
      let (out, rest) := printfOnce fmt' (tl args) in (hd "" args ++ out, rest)
  | String c fmt' =>
      let (out, rest) := printfOnce fmt' args in (String c out, rest)
  end.

(** [printf] reuses the format as long as arguments are left over. *)
Fixpoint printfLoop (fuel : nat) (fmt : string) (args : list string) : string :=
  let (out, rest) := printfOnce fmt args in
  match fuel, rest with
  | S n, _ :: _ =>
      if Nat.ltb (length rest) (length args) then out ++ printfLoop n fmt rest
      else out
  | _, _ => out
  end.

Definition printf (fmt : string) (args : list string) : string :=
  printfLoop (length args) fmt args.

(** ** The files a build leaves behind *)

(** The files written by the redirections of the build specification,
    latest first. *)
Definition Workspace := list (string * string).

Fixpoint readFile (ws : Workspace) (file : string) : option string :=
  match ws with
  | [] => None
  | (f, content) :: ws' => if String.eqb f file then Some content else readFile ws' file
  end.

(** The effect of one command line on the workspace. *)
Definition effect (env : ShellEnv) (c : Command) (ws : Workspace) : option Workspace :=
  match c with
  | PrintfTo fmt args file =>
      match expandAll env args with
      | Some a => Some ((file, printf fmt a) :: ws)
      | None => None
      end
  | _ => Some ws
  end.

Fixpoint effects (env : ShellEnv) (cs : list Command) (ws : Workspace)
    : option Workspace :=
  match cs with
  | [] => Some ws
  | c :: cs' =>
      match effect env c ws with
      | Some ws' => effects env cs' ws'
      | None => None
      end
  end.

Fixpoint collect (ws : Workspace) (names : list string) : option (list (string * string)) :=
  match names with
  | [] => Some []
  | n :: names' =>
      match readFile ws n, collect ws names' with
      | Some content, Some l => Some ((n, content) :: l)
      | _, _ => None
      end
  end.

(** What the build stage hands to the next stage. *)
Inductive StageOutcome :=
| StageSucceeded (artifact : list (string * string))
| StageFailed.

(** The environment the commands run in: the variables of the project,
    resolved, and those the build service provides. *)
Definition buildEnvironment (resolveToken : Token -> string) (p : PipelineProject)
    (region revision : string) : ShellEnv :=
  (map (fun kv => (fst kv, resolveToken (snd kv))) (environmentVariables p) ++
   [("AWS_DEFAULT_REGION", region); ("CODEBUILD_RESOLVED_SOURCE_VERSION", revision)])%list.

(** The build stage of a project.  The artifact is made of the files
    named by [artifacts.files]; a named file that was not written fails
    the stage.  [None]: the run leaves the model (see [expand]). *)
Definition runBuild (ok : Command -> bool) (env : ShellEnv) (b : BuildSpec)
    : option StageOutcome :=
  let (started, success) := runCommands ok (commands b) in
  if success then
    match effects env started [] with
    | Some ws =>
        match artifacts b with
        | Files names =>
            match collect ws names with
            | Some a => Some (StageSucceeded a)
            | None => Some StageFailed
            end
        | Pattern _ => Some (StageSucceeded ws)
        end
    | None => None
    end
  else Some StageFailed.

(** ** The deployment descriptor *)

Record ImageDefinition := {
  name : string;
  imageUri : string
}.

Definition renderImageDefinition (e : ImageDefinition) : string :=
  "{" ++ dq ++ "name" ++ dq ++ ":" ++ dq ++ name e ++ dq ++ ","
      ++ dq ++ "imageUri" ++ dq ++ ":" ++ dq ++ imageUri e ++ dq ++ "}".

(** The descriptor as the text of a JSON array. *)
Definition renderImageDefinitions (l : list ImageDefinition) : string :=
  "[" ++ String.concat "," (map renderImageDefinition l) ++ "]".

(** A value that expands to itself as a single argument. *)
Definition shellPlain (s : string) : Prop :=
  anyChar isIFS s = false /\ anyChar isGlobChar s = false.

(** * References between constructs *)

(** The identifier a construct is created with in its stack. *)
Definition constructId (c : Construct) : string :=
  match c with
  | CBucket b => bucketId b
  | CTable t => tableId t
  | CRepository r => repositoryId r
  | CFunction f => functionId f
  | CVpc v => vpcId v
  | CCluster c => clusterId c
  | CTaskDefinition t => taskDefinitionId t
  | CService s => serviceId s
  | CRestApi a => apiId a
  | CDistribution d => distributionId d
  | COutput o => outputId o
  | CProject p => projectId p
  | CPipeline p => pipelineId p
  end.

Definition taskDefinitions (t : Template) : list FargateTaskDefinition :=
  flat_map (fun c => match c with CTaskDefinition d => [d] | _ => [] end) (constructs t).

Definition services (t : Template) : list FargateService :=
  flat_map (fun c => match c with CService s => [s] | _ => [] end) (constructs t).

Definition restApis (t : Template) : list RestApi :=
  flat_map (fun c => match c with CRestApi a => [a] | _ => [] end) (constructs t).

Definition outputs (t : Template) : list CfnOutput :=
  flat_map (fun c => match c with COutput o => [o] | _ => [] end) (constructs t).

(** An identity that belongs to a construct of the template. *)
Definition registeredGrantee (t : Template) (g : Grantee) : bool :=
  match g with
  | FunctionRole id => existsb (fun f => String.eqb (functionId f) id) (functions t)
  | TaskRole id => existsb (fun d => String.eqb (taskDefinitionId d) id) (taskDefinitions t)
  | ProjectRole id => existsb (fun p => String.eqb (projectId p) id) (projects t)
  end.

(** A resource identifier of a construct of the template. *)
Definition registeredArn (t : Template) (a : Arn) : bool :=
  match a with
  | tableArn id => existsb (fun x => String.eqb (tableId x) id) (tables t)
  | repositoryArn id => existsb (fun r => String.eqb (repositoryId r) id) (repositories t)
  end.

(** A deploy-time value of a construct of the template. *)
Definition registeredToken (t : Template) (tok : Token) : bool :=
  match tok with
  | tableName id => existsb (fun x => String.eqb (tableId x) id) (tables t)
  | functionArn id => existsb (fun f => String.eqb (functionId f) id) (functions t)
  | repositoryUri id => existsb (fun r => String.eqb (repositoryId r) id) (repositories t)
  | restApiId id | restApiUrl id => existsb (fun a => String.eqb (apiId a) id) (restApis t)
  | distributionDomainName id =>
      existsb (fun d => String.eqb (distributionId d) id) (distributions t)
  | loadBalancerDnsName id => existsb (fun s => String.eqb (serviceId s) id) (services t)
  | stackRegion => true
  end.

Definition registeredOrigin (t : Template) (o : Origin) : bool :=
  match o with
  | S3Origin b => existsb (fun x => String.eqb (bucketId x) b) (buckets t)
  | HttpOrigin domain =>
      forallb (fun p => match p with Lit _ => true | Ref tok => registeredToken t tok end)
              domain
  | LoadBalancerV2Origin s => existsb (fun x => String.eqb (serviceId x) s) (services t)
  end.

(** The constructs a pipeline action names belong to the template.  The
    source action names a repository and a secret that are not
    constructs of any stack. *)
Definition registeredAction (t : Template) (a : PipelineAction) : bool :=
  match a with
  | GitHubSourceAction _ _ _ _ _ _ => false
  | CodeBuildAction _ project _ _ =>
      existsb (fun p => String.eqb (projectId p) project) (projects t)
  | EcsDeployAction _ service _ =>
      existsb (fun s => String.eqb (serviceId s) service) (services t)
  | LambdaInvokeAction _ lambda params =>
      existsb (fun f => String.eqb (functionId f) lambda) (functions t) &&
      forallb (fun kv => registeredToken t (snd kv)) params
  end.

(** ** Artifacts of a pipeline *)

Definition actionInputs (a : PipelineAction) : list Artifact :=
  match a with
  | GitHubSourceAction _ _ _ _ _ _ => []
  | CodeBuildAction _ _ input _ => [input]
  | EcsDeployAction _ _ input => [input]
  | LambdaInvokeAction _ _ _ => []
  end.

Definition actionOutputs (a : PipelineAction) : list Artifact :=
  match a with
  | GitHubSourceAction _ _ _ _ output _ => [output]
  | CodeBuildAction _ _ _ outs => outs
  | EcsDeployAction _ _ _ => []
  | LambdaInvokeAction _ _ _ => []
  end.

Definition stageInputs (s : StageProps) : list Artifact :=
  flat_map actionInputs (stageActions s).

Definition stageOutputs (s : StageProps) : list Artifact :=
  flat_map actionOutputs (stageActions s).

(** ** Variables of the build commands *)

Definition commandWords (c : Command) : list Word :=
  match c with
  | Echo _ => []
  | NpmInstall => []
  | EcrLogin region registry => [region; registry]
  | DockerBuild tag _ => [tag]
  | DockerTag source target => [source; target]
  | DockerPush ref => [ref]
  | PrintfTo _ args _ => args
  end.

Definition wordRefs (w : Word) : list string :=
  flat_map (fun p => match p with Ref x => [x] | Lit _ => [] end) w.

(** The variables a command line reads. *)
Definition commandRefs (c : Command) : list string :=
  flat_map wordRefs (commandWords c).

(** The topologies with a gateway in front of functions. *)
Definition gatewayTopologies : list Template :=
  [gatewayTopology; gatewayPipelineTopology].

(** The descriptor with the single entry for the container of the task. *)
Definition imageDefinitionsFor (uri : string) : string :=
  renderImageDefinitions [{| name := "WooCommerceContainer"; imageUri := uri |}].

(** * Properties of the permission derivation *)

(** Case analysis on the members of a list given in full. *)
Ltac enumerate H :=
  vm_compute in H; repeat (destruct H as [<- | H]; [| ]); try contradiction.

Lemma grantee_eqb_eq (a b : Grantee) : grantee_eqb a b = true <-> a = b.
Proof.
  destruct a, b; simpl; try (split; intros H; discriminate H);
    rewrite String.eqb_eq; split; intros H; [now subst | now inversion H
                                            | now subst | now inversion H
                                            | now subst | now inversion H].
Qed.

Lemma action_eqb_eq (a b : Action) : action_eqb a b = true <-> a = b.
Proof.
  destruct a, b; simpl; try (split; intros H; first [reflexivity | discriminate H]).
  rewrite String.eqb_eq. split; intros H; [now subst | now inversion H].
Qed.

Lemma arn_eqb_eq (a b : Arn) : arn_eqb a b = true <-> a = b.
Proof.
  destruct a, b; simpl; try (split; intros H; discriminate H);
    rewrite String.eqb_eq; split; intros H; [now subst | now inversion H
                                            | now subst | now inversion H].
Qed.

Lemma list_eqb_eq {A} (eqb : A -> A -> bool) :
  (forall a b, eqb a b = true <-> a = b) ->
  forall l1 l2, list_eqb eqb l1 l2 = true <-> l1 = l2.
Proof.
  intros Heqb. induction l1 as [| a l1 IH]; intros [| b l2]; simpl;
    try (split; intros H; first [reflexivity | discriminate H]).
  rewrite andb_true_iff, Heqb, IH.
  split; [intros [-> ->]; reflexivity | intros H; now inversion H].
Qed.

Lemma statement_eqb_eq (a b : PolicyStatement) : statement_eqb a b = true <-> a = b.
Proof.
  unfold statement_eqb.
  rewrite !andb_true_iff, grantee_eqb_eq,
    (list_eqb_eq action_eqb action_eqb_eq), (list_eqb_eq arn_eqb arn_eqb_eq).
  destruct a, b; simpl. split.
  - intros [[-> ->] ->]. reflexivity.
  - intros H. now inversion H.
Qed.

Lemma existsb_statement (st : PolicyStatement) (ps : list PolicyStatement) :
  existsb (statement_eqb st) ps = true <-> In st ps.
Proof.
  rewrite existsb_exists. split.
  - intros (x & Hin & Heq). apply statement_eqb_eq in Heq. now subst.
  - intros Hin. exists st. split; [exact Hin | now apply statement_eqb_eq].
Qed.

(** A statement that is there is not added again. *)
Lemma addStatement_present (st : PolicyStatement) (ps : list PolicyStatement) :
  In st ps -> addStatement st ps = ps.
Proof.
  intros Hin. unfold addStatement.
  now rewrite (proj2 (existsb_statement st ps) Hin).
Qed.

Lemma addStatement_absent (st : PolicyStatement) (ps : list PolicyStatement) :
  ~ In st ps -> addStatement st ps = (ps ++ [st])%list.
Proof.
  intros Hnin. unfold addStatement.
  destruct (existsb (statement_eqb st) ps) eqn:E; [| reflexivity].
  apply existsb_statement in E. contradiction.
Qed.

Lemma addStatement_In (st x : PolicyStatement) (ps : list PolicyStatement) :
  In x (addStatement st ps) <-> In x ps \/ x = st.
Proof.
  unfold addStatement. destruct (existsb (statement_eqb st) ps) eqn:E.
  - apply existsb_statement in E. split; [auto | intros [H | ->]; assumption].
  - rewrite in_app_iff. simpl. intuition.
Qed.

Lemma addStatement_NoDup (st : PolicyStatement) (ps : list PolicyStatement) :
  NoDup ps -> NoDup (addStatement st ps).
Proof.
  intros Hnd. unfold addStatement.
  destruct (existsb (statement_eqb st) ps) eqn:E; [exact Hnd |].
  assert (Hnin : ~ In st ps).
  { intros Hin. apply existsb_statement in Hin. congruence. }
  apply NoDup_app; [exact Hnd | repeat constructor; auto | ].
  intros x Hx [<- | []]. contradiction.
Qed.

Lemma addStatement_length (st : PolicyStatement) (ps : list PolicyStatement) :
  length (addStatement st ps) <= S (length ps).
Proof.
  unfold addStatement. destruct (existsb (statement_eqb st) ps).
  - lia.
  - rewrite length_app. simpl. lia.
Qed.

(** The grants of a list of edges touch the policies only. *)
Lemma exec_grantAll (G : list Edge) (t : Template) :
  Synth.exec (grantAll G) t
  = {| constructs := constructs t;
       policies := grantStatements G (policies t);
       apiResources := apiResources t; apiMethods := apiMethods t;
       containers := containers t; portMappings := portMappings t |}.
Proof.
  revert t. induction G as [| e G IH]; intros t.
  - destruct t. reflexivity.
  - change (Synth.exec (grantAll (e :: G)) t)
      with (Synth.exec (grantAll G)
              (Synth.exec (grantReadWriteData (snd e) (fst e)) t)).
    rewrite IH. reflexivity.
Qed.

Lemma derive_grantStatements (G : list Edge) : derive G = grantStatements G [].
Proof. unfold derive, synth. now rewrite exec_grantAll. Qed.

Lemma grantStatements_In (G : list Edge) (ps : list PolicyStatement)
    (x : PolicyStatement) :
  In x (grantStatements G ps) <-> In x ps \/ In x (map readWriteGrant G).
Proof.
  revert ps. induction G as [| e G IH]; intros ps; simpl.
  - tauto.
  - unfold grantStatements in *. simpl. rewrite IH, addStatement_In.
    intuition.
Qed.

Lemma grantStatements_NoDup (G : list Edge) (ps : list PolicyStatement) :
  NoDup ps -> NoDup (grantStatements G ps).
Proof.
  revert ps. induction G as [| e G IH]; intros ps Hnd; simpl.
  - exact Hnd.
  - apply IH. now apply addStatement_NoDup.
Qed.

Lemma grantStatements_length (G : list Edge) (ps : list PolicyStatement) :
  length (grantStatements G ps) <= length ps + length G.
Proof.
  revert ps. induction G as [| e G IH]; intros ps; simpl.
  - lia.
  - unfold grantStatements in *. simpl.
    specialize (IH (addStatement (readWriteGrant e) ps)).
    pose proof (addStatement_length (readWriteGrant e) ps). lia.
Qed.

(** Grants that are all there already change nothing. *)
Lemma grantStatements_fixed (G : list Edge) (ps : list PolicyStatement) :
  (forall e, In e G -> In (readWriteGrant e) ps) -> grantStatements G ps = ps.
Proof.
  induction G as [| e G IH]; intros Hall; simpl.
  - reflexivity.
  - unfold grantStatements in *. simpl.
    rewrite addStatement_present by (apply Hall; now left).
    apply IH. intros e' He'. apply Hall. now right.
Qed.

Lemma grantStatements_distinct (G : list Edge) (ps : list PolicyStatement) :
  NoDup (ps ++ map readWriteGrant G) ->
  grantStatements G ps = (ps ++ map readWriteGrant G)%list.
Proof.
  revert ps. induction G as [| e G IH]; intros ps Hnd; simpl.
  - now rewrite app_nil_r.
  - unfold grantStatements in *. simpl. simpl in Hnd.
    assert (Hnin : ~ In (readWriteGrant e) ps).
    { intros Hin. apply NoDup_remove_2 in Hnd. apply Hnd.
      apply in_app_iff. now left. }
    rewrite addStatement_absent by exact Hnin.
    rewrite IH; rewrite <- app_assoc; simpl; [reflexivity | exact Hnd].
Qed.

Lemma readWriteGrant_key_inj (e1 e2 : Edge) :
  readWriteGrant e1 = readWriteGrant e2 ->
  (fst e1, tableId (snd e1)) = (fst e2, tableId (snd e2)).
Proof. unfold readWriteGrant. intros H. now inversion H. Qed.

Lemma NoDup_map_factor {A B C} (f : A -> B) (k : A -> C) (l : list A) :
  (forall a b, f a = f b -> k a = k b) ->
  NoDup (map k l) -> NoDup (map f l).
Proof.
  intros Hf. induction l as [| a l IH]; simpl; intros Hk.
  - constructor.
  - inversion Hk as [| ? ? Hnotin Hrest]; subst. constructor.
    + intros Hin. apply Hnotin. apply in_map_iff in Hin.
      destruct Hin as (b & Hb & Hinb). apply in_map_iff.
      exists b. split; [symmetry; now apply Hf | assumption].
    + now apply IH.
Qed.

(** C1: every [reads_writes] edge (C, T) yields a statement that gives
    C's identity the read and write data actions on T's identifier and
    on nothing else; every derived statement comes from an edge of its
    principal, so no identity is granted a table it has no edge to; the
    table statements of the three constructors are the derivation of
    their edges, and in the gateway topology (tables keyed productId,
    orderId, cartId, one function per table) these are exactly three
    statements, each scoped to one table. *)
Theorem C1_grants_follow_edges :
  (forall (G : list Edge) (c : Grantee) (t : Table),
      In (c, t) G ->
      In {| principal := c; actions := [ReadData; WriteData];
            resources := [tableArn (tableId t)] |} (derive G))
  /\ (forall (G : list Edge) (st : PolicyStatement),
        In st (derive G) ->
        exists t, In (principal st, t) G
                  /\ actions st = [ReadData; WriteData]
                  /\ resources st = [tableArn (tableId t)])
  /\ tableStatements gatewayTopology = derive gatewayEdges
  /\ tableStatements gatewayPipelineTopology = derive gatewayPipelineEdges
  /\ tableStatements containerTopology = derive containerEdges
  /\ map (fun t => fst (partitionKey t)) (tables gatewayTopology)
     = ["productId"; "orderId"; "cartId"]
  /\ length (derive gatewayEdges) = 3
  /\ map resources (derive gatewayEdges)
     = [[tableArn "ProductsTable"]; [tableArn "OrdersTable"]; [tableArn "CartTable"]]
  /\ map principal (derive gatewayEdges)
     = [FunctionRole "ProductsFunction"; FunctionRole "OrdersFunction";
        FunctionRole "CartFunction"].
Proof.
  split; [| split].
  - intros G c t Hin. rewrite derive_grantStatements, grantStatements_In. right.
    change {| principal := c; actions := [ReadData; WriteData];
              resources := [tableArn (tableId t)] |}
      with (readWriteGrant (c, t)).
    now apply in_map.
  - intros G st Hin. rewrite derive_grantStatements, grantStatements_In in Hin.
    destruct Hin as [[] | Hin]. apply in_map_iff in Hin.
    destruct Hin as ([c t] & <- & Hin). exists t. simpl. auto.
  - repeat split; reflexivity.
Qed.

(** The edge of the products function, checked through C1. *)
Lemma C1_grants_follow_edges_witness :
  In {| principal := FunctionRole "ProductsFunction";
        actions := [ReadData; WriteData];
        resources := [tableArn "ProductsTable"] |} (derive gatewayEdges).
Proof.
  apply (proj1 C1_grants_follow_edges gatewayEdges
           (FunctionRole "ProductsFunction") CdkWoocommerceStack.productsTable).
  simpl. left. reflexivity.
Defined.

(** C9: running the grants of a graph a second time on the scope of
    the first run leaves the template as it was: the statements are the
    same list, with nothing accumulated.  The derived statements are
    pairwise distinct for every graph, they are exactly the statements
    the edges stand for, at most one per edge, and one per edge in the
    order of the edges when the edges are distinct. *)
Theorem C9_derive_idempotent (G : list Edge) :
  let once := Synth.exec (grantAll G) emptyTemplate in
  let again := Synth.exec (grantAll G) once in
  again = once
  /\ policies again = derive G
  /\ NoDup (derive G)
  /\ (forall st, In st (derive G) <-> In st (map readWriteGrant G))
  /\ length (derive G) <= length G
  /\ (NoDup (map (fun e => (fst e, tableId (snd e))) G) ->
        derive G = map readWriteGrant G).
Proof.
  cbv zeta.
  assert (Hfix : grantStatements G (grantStatements G []) = grantStatements G []).
  { apply grantStatements_fixed. intros e He.
    apply grantStatements_In. right. now apply in_map. }
  split; [| split; [| split; [| split; [| split]]]].
  - rewrite (exec_grantAll G (Synth.exec (grantAll G) emptyTemplate)).
    rewrite (exec_grantAll G emptyTemplate). simpl. now rewrite Hfix.
  - rewrite (exec_grantAll G (Synth.exec (grantAll G) emptyTemplate)).
    rewrite (exec_grantAll G emptyTemplate). simpl.
    now rewrite Hfix, derive_grantStatements.
  - rewrite derive_grantStatements. apply grantStatements_NoDup. constructor.
  - intros st. rewrite derive_grantStatements, grantStatements_In. simpl. tauto.
  - rewrite derive_grantStatements.
    pose proof (grantStatements_length G []) as H. simpl in H. exact H.
  - intros Hnd. rewrite derive_grantStatements.
    apply (grantStatements_distinct G []). simpl.
    apply (NoDup_map_factor readWriteGrant (fun e => (fst e, tableId (snd e)))).
    + exact readWriteGrant_key_inj.
    + exact Hnd.
Qed.

(** The three edges of the gateway topology are distinct: their
    statements are the three the edges stand for. *)
Lemma C9_derive_idempotent_witness :
  derive gatewayEdges = map readWriteGrant gatewayEdges.
Proof.
  apply (proj2 (proj2 (proj2 (proj2 (proj2 (C9_derive_idempotent gatewayEdges)))))).
  simpl. repeat constructor; simpl; intuition discriminate.
Defined.

(** C7: in both topologies with a pipeline, the statements of the build
    identity carry exactly the actions pull, push, get-download-url,
    batch-get-image and complete-layer-upload, every one of them scoped
    to the single image repository of the stack and to nothing else. *)
Theorem C7_build_identity_registry_grants (t : Template) :
  In t pipelineTopologies ->
  grantedActions t buildIdentity
  = [Pull; Push; IamAction "ecr:GetDownloadUrlForLayer";
     IamAction "ecr:BatchGetImage"; IamAction "ecr:CompleteLayerUpload"]
  /\ (forall st, In st (statementsOf t buildIdentity) ->
        resources st = [repositoryArn "WooCommerceRepo"])
  /\ (forall r, In r (grantedResources t buildIdentity) ->
        r = repositoryArn "WooCommerceRepo")
  /\ repositories t = [{| repositoryId := "WooCommerceRepo" |}]
  /\ map projectId (projects t) = ["BuildProject"].
Proof.
  intros [<- | [<- | []]].
  - split; [reflexivity |]. split; [| split; [| split; reflexivity]].
    + intros st [<- | [<- | []]]; reflexivity.
    + intros r [<- | [<- | []]]; reflexivity.
  - split; [reflexivity |]. split; [| split; [| split; reflexivity]].
    + intros st [<- | [<- | []]]; reflexivity.
    + intros r [<- | [<- | []]]; reflexivity.
Qed.

(** C7 at the container topology. *)
Lemma C7_build_identity_registry_grants_witness :
  grantedActions containerTopology buildIdentity
  = [Pull; Push; IamAction "ecr:GetDownloadUrlForLayer";
     IamAction "ecr:BatchGetImage"; IamAction "ecr:CompleteLayerUpload"].
Proof.
  apply (C7_build_identity_registry_grants containerTopology).
  simpl. right. left. reflexivity.
Defined.

(** * Properties of the environments *)

(** C10: every topology has compute units: the three functions in the
    gateway topologies, each with the single variable that names its own
    table, and the one container of the task in the container topology,
    with the three variables that name the three tables.  For every
    unit the tables named by its environment are exactly the tables its
    identity is granted, and every variable names a table. *)
Theorem C10_environment_names_granted_tables (t : Template) :
  In t topologies ->
  ((In t gatewayTopologies
    /\ map (fun u => (identity u, environment u)) (computeUnits t)
       = [(FunctionRole "ProductsFunction",
           [("PRODUCTS_TABLE", tableName "ProductsTable")]);
          (FunctionRole "OrdersFunction",
           [("ORDERS_TABLE", tableName "OrdersTable")]);
          (FunctionRole "CartFunction",
           [("CART_TABLE", tableName "CartTable")])])
   \/ (t = containerTopology
       /\ map (fun u => (identity u, environment u)) (computeUnits t)
          = [(TaskRole "WooCommerceTaskDef",
              [("PRODUCTS_TABLE", tableName "ProductsTable");
               ("ORDERS_TABLE", tableName "OrdersTable");
               ("CART_TABLE", tableName "CartTable")])]))
  /\ (forall u, In u (computeUnits t) ->
        (forall id, In id (namedTables (environment u))
                    <-> In id (grantedTables t (identity u)))
        /\ grantedTables t (identity u) = namedTables (environment u)
        /\ length (namedTables (environment u)) = length (environment u)
        /\ match u with
           | FunctionUnit _ => length (environment u) = 1
           | ContainerUnit _ =>
               computeUnits t = [u] /\
               namedTables (environment u)
               = ["ProductsTable"; "OrdersTable"; "CartTable"]
           end).
Proof.
  intros Ht. split.
  - destruct Ht as [<- | [<- | [<- | []]]].
    + left. split; [simpl; auto | reflexivity].
    + left. split; [simpl; auto | reflexivity].
    + right. split; reflexivity.
  - intros u Hu.
    destruct Ht as [<- | [<- | [<- | []]]]; vm_compute in Hu;
      repeat (destruct Hu as [<- | Hu]; [| ]); try contradiction;
      (split; [intros id; vm_compute; tauto |]);
      (split; [reflexivity |]); (split; [reflexivity |]);
      try reflexivity; split; reflexivity.
Qed.

(** C10 at the container topology. *)
Lemma C10_environment_names_granted_tables_witness :
  (In containerTopology gatewayTopologies
   /\ map (fun u => (identity u, environment u)) (computeUnits containerTopology)
      = [(FunctionRole "ProductsFunction",
          [("PRODUCTS_TABLE", tableName "ProductsTable")]);
         (FunctionRole "OrdersFunction",
          [("ORDERS_TABLE", tableName "OrdersTable")]);
         (FunctionRole "CartFunction",
          [("CART_TABLE", tableName "CartTable")])])
  \/ (containerTopology = containerTopology
      /\ map (fun u => (identity u, environment u)) (computeUnits containerTopology)
         = [(TaskRole "WooCommerceTaskDef",
             [("PRODUCTS_TABLE", tableName "ProductsTable");
              ("ORDERS_TABLE", tableName "OrdersTable");
              ("CART_TABLE", tableName "CartTable")])]).
Proof.
  refine (proj1 (C10_environment_names_granted_tables containerTopology _)).
  simpl. right. right. left. reflexivity.
Defined.

(** * Properties of the routing rules *)

Lemma globMatch_star (s : string) : globMatch "*" s = true.
Proof.
  induction s as [| c s IH].
  - reflexivity.
  - simpl. simpl in IH. exact IH.
Qed.

(** A pattern that starts with literal text matches only paths that
    start with the same text. *)
Lemma globMatch_literal_prefix (lit pat s : string) :
  anyChar (fun c => Ascii.eqb c "*" || Ascii.eqb c "?") lit = false ->
  globMatch (lit ++ pat) s = true ->
  exists s', s = lit ++ s' /\ globMatch pat s' = true.
Proof.
  revert s. induction lit as [| c lit IH]; intros s Hlit Hm.
  - exists s. split; [reflexivity | exact Hm].
  - simpl in Hlit. apply orb_false_elim in Hlit. destruct Hlit as [Hc Hlit].
    apply orb_false_elim in Hc. destruct Hc as [Hstar Hq].
    simpl in Hm. rewrite Hstar, Hq in Hm.
    destruct s as [| d s]; [discriminate |].
    apply andb_prop in Hm. destruct Hm as [Hcd Hm]. simpl in Hcd.
    apply Ascii.eqb_eq in Hcd. subst d.
    destruct (IH s Hlit Hm) as (s' & -> & Hs').
    exists s'. split; [reflexivity | exact Hs'].
Qed.

Lemma globMatch_literal_app (lit pat s : string) :
  anyChar (fun c => Ascii.eqb c "*" || Ascii.eqb c "?") lit = false ->
  globMatch (lit ++ pat) (lit ++ s) = globMatch pat s.
Proof.
  induction lit as [| c lit IH]; intros Hlit.
  - reflexivity.
  - simpl in Hlit. apply orb_false_elim in Hlit. destruct Hlit as [Hc Hlit].
    apply orb_false_elim in Hc. destruct Hc as [Hstar Hq].
    simpl. rewrite Hstar, Hq, Ascii.eqb_refl. simpl. now apply IH.
Qed.

Lemma string_app_assoc (a b c : string) : (a ++ b) ++ c = a ++ (b ++ c).
Proof. induction a as [| x a IH]; simpl; [reflexivity | now rewrite IH]. Qed.

Lemma resource_pattern_matches (resource rest : string) :
  anyChar (fun c => Ascii.eqb c "*" || Ascii.eqb c "?") ("/api/" ++ resource ++ "/")
  = false ->
  globMatch (("/api/" ++ resource ++ "/") ++ "*") (endpointPath resource rest) = true.
Proof.
  intros Hlit. unfold endpointPath.
  replace ("/api/" ++ resource ++ "/" ++ rest)
    with (("/api/" ++ resource ++ "/") ++ rest).
  - rewrite globMatch_literal_app by exact Hlit. apply globMatch_star.
  - now rewrite <- !string_app_assoc.
Qed.

Lemma gateway_resolve_products (d : Distribution) (rest : string) :
  additionalBehaviors d = additionalBehaviors CdkWoocommerceStack.distribution ->
  cachePolicy (resolve d (endpointPath "products" rest)) = Some CACHING_OPTIMIZED.
Proof.
  intros Hd. unfold resolve. rewrite Hd.
  cbn -[globMatch endpointPath].
  change "/api/products/*" with (("/api/" ++ "products" ++ "/") ++ "*").
  rewrite resource_pattern_matches by reflexivity. reflexivity.
Qed.

Lemma gateway_resolve_orders (d : Distribution) (rest : string) :
  additionalBehaviors d = additionalBehaviors CdkWoocommerceStack.distribution ->
  cachePolicy (resolve d (endpointPath "orders" rest)) = Some CACHING_DISABLED.
Proof.
  intros Hd. unfold resolve. rewrite Hd.
  cbn -[globMatch endpointPath].
  replace (globMatch "/api/products/*" (endpointPath "orders" rest)) with false
    by reflexivity.
  change "/api/orders/*" with (("/api/" ++ "orders" ++ "/") ++ "*").
  rewrite resource_pattern_matches by reflexivity. reflexivity.
Qed.

Lemma gateway_resolve_cart (d : Distribution) (rest : string) :
  additionalBehaviors d = additionalBehaviors CdkWoocommerceStack.distribution ->
  cachePolicy (resolve d (endpointPath "cart" rest)) = Some CACHING_DISABLED.
Proof.
  intros Hd. unfold resolve. rewrite Hd.
  cbn -[globMatch endpointPath].
  replace (globMatch "/api/products/*" (endpointPath "cart" rest)) with false
    by reflexivity.
  replace (globMatch "/api/orders/*" (endpointPath "cart" rest)) with false
    by reflexivity.
  change "/api/cart/*" with (("/api/" ++ "cart" ++ "/") ++ "*").
  rewrite resource_pattern_matches by reflexivity. reflexivity.
Qed.

Lemma gateway_write_capable (t : Template) (resource : string) :
  apiMethods t = apiMethods gatewayTopology ->
  writeCapable t resource = true ->
  resource = "products" \/ resource = "orders" \/ resource = "cart".
Proof.
  intros Ht H. unfold writeCapable in H. rewrite Ht in H.
  apply existsb_exists in H. destruct H as (m & Hin & Hm).
  apply andb_prop in Hm. destruct Hm as [Hres _].
  apply String.eqb_eq in Hres. subst resource.
  vm_compute in Hin.
  repeat (destruct Hin as [<- | Hin]; [simpl; tauto |]). contradiction.
Qed.

Lemma gateway_patterns_exclusive (path : string) (r1 r2 : string * Behavior) :
  In r1 (additionalBehaviors CdkWoocommerceStack.distribution) ->
  In r2 (additionalBehaviors CdkWoocommerceStack.distribution) ->
  globMatch (fst r1) path = true -> globMatch (fst r2) path = true -> r1 = r2.
Proof.
  intros H1 H2 M1 M2. simpl in H1, H2.
  destruct H1 as [<- | [<- | [<- | []]]]; destruct H2 as [<- | [<- | [<- | []]]];
    try reflexivity; simpl fst in M1, M2; exfalso;
    match type of M1 with
    | globMatch "/api/products/*" _ = true =>
        destruct (globMatch_literal_prefix "/api/products/" "*" path eq_refl M1)
          as (rest & -> & _)
    | globMatch "/api/orders/*" _ = true =>
        destruct (globMatch_literal_prefix "/api/orders/" "*" path eq_refl M1)
          as (rest & -> & _)
    | globMatch "/api/cart/*" _ = true =>
        destruct (globMatch_literal_prefix "/api/cart/" "*" path eq_refl M1)
          as (rest & -> & _)
    end;
    cbv in M2; discriminate M2.
Qed.

Lemma topology_one_distribution (t : Template) :
  In t topologies ->
  (In t gatewayTopologies /\ distributions t = [CdkWoocommerceStack.distribution])
  \/ (t = containerTopology
      /\ distributions t = [CdkWoocommerceCicdStack.distribution]).
Proof.
  intros [<- | [<- | [<- | []]]].
  - left. split; [simpl; auto | reflexivity].
  - left. split; [simpl; auto | reflexivity].
  - right. split; reflexivity.
Qed.

(** C2, as the code has it: every topology has one distribution; no
    path is matched by two of its path-pattern rules, so among them no
    path meets two cache policies, while the default rule, which
    matches every path, declares no cache policy.  In the gateway
    topologies products, orders and cart are write-capable; every
    write-capable resource other than products resolves to a rule with
    caching disabled, and products resolves to the rule with the
    optimized cache policy.  The container topology has no
    write-capable gateway resource. *)
Theorem C2_cache_policy_split (t : Template) :
  In t topologies ->
  exists d,
    distributions t = [d]
    /\ patternsExclusive d
    /\ cachePolicy (defaultBehavior d) = None
    /\ (forall r, In r (additionalBehaviors d) -> cachePolicy (snd r) <> None)
    /\ (In t gatewayTopologies ->
          map (fun r => (fst r, cachePolicy (snd r))) (additionalBehaviors d)
          = [("/api/products/*", Some CACHING_OPTIMIZED);
             ("/api/orders/*", Some CACHING_DISABLED);
             ("/api/cart/*", Some CACHING_DISABLED)]
          /\ forall resource, In resource ["products"; "orders"; "cart"] ->
                              writeCapable t resource = true)
    /\ (forall resource rest,
          writeCapable t resource = true -> resource <> "products" ->
          cachePolicy (resolve d (endpointPath resource rest)) = Some CACHING_DISABLED)
    /\ (forall rest,
          writeCapable t "products" = true ->
          cachePolicy (resolve d (endpointPath "products" rest))
          = Some CACHING_OPTIMIZED)
    /\ (t = containerTopology -> forall resource, writeCapable t resource = false).
Proof.
  intros Ht.
  destruct (topology_one_distribution t Ht) as [[Hg Hd] | [-> Hd]].
  - exists CdkWoocommerceStack.distribution.
    assert (Hm : apiMethods t = apiMethods gatewayTopology).
    { destruct Hg as [<- | [<- | []]]; reflexivity. }
    split; [exact Hd |]. split; [| split; [reflexivity |]].
    { intros r1 r2 path. apply gateway_patterns_exclusive. }
    split; [| split; [| split; [| split]]].
    + intros r Hr. enumerate Hr; discriminate.
    + intros _. split; [reflexivity |].
      intros resource Hres. unfold writeCapable. rewrite Hm.
      enumerate Hres; reflexivity.
    + intros resource rest Hw Hne.
      destruct (gateway_write_capable t resource Hm Hw) as [-> | [-> | ->]].
      * contradiction.
      * now apply gateway_resolve_orders.
      * now apply gateway_resolve_cart.
    + intros rest _. now apply gateway_resolve_products.
    + intros ->. destruct Hg as [Hg | [Hg | []]]; discriminate Hg.
  - exists CdkWoocommerceCicdStack.distribution.
    split; [exact Hd |]. split; [| split; [reflexivity |]].
    { intros r1 r2 path H1 H2 _ _. enumerate H1. enumerate H2. reflexivity. }
    split; [| split; [| split; [| split]]].
    + intros r Hr. enumerate Hr. discriminate.
    + intros [Hg | [Hg | []]]; discriminate Hg.
    + intros resource rest Hw. discriminate Hw.
    + intros rest Hw. discriminate Hw.
    + intros _ resource. reflexivity.
Qed.

(** C2 at the gateway topology. *)
Lemma C2_cache_policy_split_witness :
  exists d,
    distributions gatewayTopology = [d]
    /\ cachePolicy (resolve d (endpointPath "orders" "42")) = Some CACHING_DISABLED.
Proof.
  destruct (C2_cache_policy_split gatewayTopology (or_introl eq_refl))
    as (d & Hd & _ & _ & _ & _ & Hwrite & _).
  exists d. split; [exact Hd |].
  apply Hwrite; [reflexivity | discriminate].
Defined.

(** C2, as stated, fails in both halves.  The products resource accepts
    POST and resolves to the rule with the optimized cache policy, so
    write-capable endpoints do not all resolve to a rule with caching
    disabled.  And the path [/api/orders/42] is matched by the orders
    rule, with caching disabled, and by the default rule, whose cache
    policy is not that one: two rules that match the same path do not
    always carry the same cache policy. *)
Lemma C2_products_endpoint_cached :
  (writeCapable gatewayTopology "products" = true
   /\ cachePolicy (resolve CdkWoocommerceStack.distribution
                     (endpointPath "products" "1"))
      = Some CACHING_OPTIMIZED
   /\ ~ writeEndpointsUncached gatewayTopology)
  /\ (globMatch "/api/orders/*" "/api/orders/42" = true
      /\ globMatch "*" "/api/orders/42" = true
      /\ (exists b, In ("/api/orders/*", b) (rules CdkWoocommerceStack.distribution)
                    /\ cachePolicy b = Some CACHING_DISABLED)
      /\ (exists b, In ("*", b) (rules CdkWoocommerceStack.distribution)
                    /\ cachePolicy b = None)
      /\ ~ cachePoliciesAgree CdkWoocommerceStack.distribution).
Proof.
  split.
  - split; [reflexivity |]. split; [reflexivity |].
    intros H.
    specialize (H CdkWoocommerceStack.distribution "products" "1"
                  (or_introl eq_refl) eq_refl).
    discriminate H.
  - split; [reflexivity |]. split; [reflexivity |]. split; [| split].
    + eexists. split; [simpl; right; left; reflexivity | reflexivity].
    + eexists. split; [simpl; do 3 right; left; reflexivity | reflexivity].
    + intros H.
      specialize (H "/api/orders/*" (snd (nth 1 (rules CdkWoocommerceStack.distribution)
                                              ("", defaultBehavior CdkWoocommerceStack.distribution)))
                    "*" (defaultBehavior CdkWoocommerceStack.distribution)
                    "/api/orders/42").
      simpl in H. discriminate H; auto 6.
Qed.

(** C6: the container topology has no gateway resource; its
    distribution has exactly one additional rule, with pattern [/api/*],
    the load balancer of the service as origin and caching disabled, and
    every path under [/api/] resolves to it. *)
Theorem C6_container_single_dynamic_rule :
  distributions containerTopology = [CdkWoocommerceCicdStack.distribution]
  /\ additionalBehaviors CdkWoocommerceCicdStack.distribution
     = [("/api/*",
         {| origin := LoadBalancerV2Origin "WooCommerceService";
            allowedMethods := Some ALLOW_ALL;
            viewerProtocolPolicy := Some HTTPS_ONLY;
            cachePolicy := Some CACHING_DISABLED |})]
  /\ length (additionalBehaviors CdkWoocommerceCicdStack.distribution) = 1
  /\ apiResources containerTopology = []
  /\ apiMethods containerTopology = []
  /\ functions containerTopology = []
  /\ map containerName (containers containerTopology) = ["WooCommerceContainer"]
  /\ (forall rest,
        resolve CdkWoocommerceCicdStack.distribution ("/api/" ++ rest)
        = {| origin := LoadBalancerV2Origin "WooCommerceService";
             allowedMethods := Some ALLOW_ALL;
             viewerProtocolPolicy := Some HTTPS_ONLY;
             cachePolicy := Some CACHING_DISABLED |}).
Proof.
  repeat (split; [reflexivity |]).
  intros rest.
  assert (Hm : globMatch "/api/*" ("/api/" ++ rest) = true).
  { change "/api/*" with ("/api/" ++ "*").
    rewrite globMatch_literal_app by reflexivity. apply globMatch_star. }
  unfold resolve. cbn -[globMatch append]. now rewrite Hm.
Qed.

(** C8: every topology has one bucket and one distribution; the
    default rule of the distribution, to which the root path resolves,
    has that bucket as origin and redirects to HTTPS; the additional
    rules, three in the gateway topologies and one in the container
    topology, are all [/api] rules with protocol policy HTTPS-only. *)
Theorem C8_protocol_policies (t : Template) :
  In t topologies ->
  exists d,
    distributions t = [d]
    /\ map bucketId (buckets t) = ["WooCommerceAssets"]
    /\ origin (defaultBehavior d) = S3Origin "WooCommerceAssets"
    /\ viewerProtocolPolicy (defaultBehavior d) = Some REDIRECT_TO_HTTPS
    /\ resolve d "/" = defaultBehavior d
    /\ resolve d "/index.html" = defaultBehavior d
    /\ (map fst (additionalBehaviors d)
          = ["/api/products/*"; "/api/orders/*"; "/api/cart/*"]
        \/ map fst (additionalBehaviors d) = ["/api/*"])
    /\ (forall pat b,
          In (pat, b) (additionalBehaviors d) ->
          String.prefix "/api/" pat = true
          /\ viewerProtocolPolicy b = Some HTTPS_ONLY).
Proof.
  intros Ht.
  assert (Hrules : forall d : Distribution,
            forallb (fun r => String.prefix "/api/" (fst r)
                              && match viewerProtocolPolicy (snd r) with
                                 | Some HTTPS_ONLY => true
                                 | _ => false
                                 end)
                    (additionalBehaviors d) = true ->
            forall pat b, In (pat, b) (additionalBehaviors d) ->
                          String.prefix "/api/" pat = true
                          /\ viewerProtocolPolicy b = Some HTTPS_ONLY).
  { intros d Hall pat b Hin. rewrite forallb_forall in Hall.
    specialize (Hall (pat, b) Hin). simpl in Hall.
    apply andb_prop in Hall. destruct Hall as [Hp Hv]. split; [exact Hp |].
    destruct (viewerProtocolPolicy b) as [[| |] |]; try discriminate Hv.
    reflexivity. }
  destruct Ht as [<- | [<- | [<- | []]]].
  - exists CdkWoocommerceStack.distribution.
    repeat (split; [reflexivity |]). split; [left; reflexivity |].
    apply Hrules. reflexivity.
  - exists CdkWoocommerceStack1.distribution.
    repeat (split; [reflexivity |]). split; [left; reflexivity |].
    apply Hrules. reflexivity.
  - exists CdkWoocommerceCicdStack.distribution.
    repeat (split; [reflexivity |]). split; [right; reflexivity |].
    apply Hrules. reflexivity.
Qed.

(** C8 at the container topology. *)
Lemma C8_protocol_policies_witness :
  exists d,
    distributions containerTopology = [d]
    /\ viewerProtocolPolicy (defaultBehavior d) = Some REDIRECT_TO_HTTPS.
Proof.
  destruct (C8_protocol_policies containerTopology
              (or_intror (or_intror (or_introl eq_refl))))
    as (d & Hd & _ & _ & Hv & _).
  exists d. split; [exact Hd | exact Hv].
Defined.

(** * Properties of pipeline executions *)

Lemma execute_terminal (p : Pipeline) (s : ExecState) (outcomes : list bool) :
  s = Succeeded \/ s = Failed ->
  execute p s outcomes = repeat s (S (length outcomes)).
Proof.
  intros Hs. induction outcomes as [| ok rest IH]; simpl.
  - reflexivity.
  - f_equal. destruct Hs as [-> | ->]; simpl; apply IH.
Qed.

Lemma stageIndices_terminal (s : ExecState) (n : nat) :
  s = Succeeded \/ s = Failed -> stageIndices (repeat s n) = [].
Proof.
  intros Hs. induction n as [| n IH]; simpl; [reflexivity |].
  unfold stageIndices in *. simpl. rewrite IH.
  destruct Hs as [-> | ->]; reflexivity.
Qed.

(** The stages are entered one after the other, starting from the
    stage the execution is in. *)
Lemma execute_indices (p : Pipeline) (outcomes : list bool) (i : nat) :
  i < length (stages p) ->
  exists k, 1 <= k /\ i + k <= length (stages p)
            /\ stageIndices (execute p (InStage i) outcomes) = seq i k.
Proof.
  revert i. induction outcomes as [| ok rest IH]; intros i Hi.
  - exists 1. simpl. repeat split; lia.
  - simpl. destruct ok.
    + destruct (Nat.ltb_spec (S i) (length (stages p))) as [Hlt | Hge].
      * destruct (IH (S i) Hlt) as (k & Hk1 & Hk2 & Hk3).
        exists (S k). repeat split; [lia | lia |].
        unfold stageIndices in *. simpl. now rewrite Hk3.
      * exists 1. repeat split; [lia | lia |].
        rewrite execute_terminal by auto.
        change (stageIndices (InStage i :: repeat Succeeded (S (length rest))))
          with (i :: stageIndices (repeat Succeeded (S (length rest)))).
        now rewrite stageIndices_terminal by auto.
    + exists 1. repeat split; [lia | lia |].
      rewrite execute_terminal by auto.
      change (stageIndices (InStage i :: repeat Failed (S (length rest))))
        with (i :: stageIndices (repeat Failed (S (length rest)))).
      now rewrite stageIndices_terminal by auto.
Qed.

(** Whatever follows [Failed] in a trace is [Failed]. *)
Lemma execute_after_failed (p : Pipeline) (outcomes : list bool) :
  forall s l1 l2,
    execute p s outcomes = (l1 ++ Failed :: l2)%list ->
    forall x, In x l2 -> x = Failed.
Proof.
  induction outcomes as [| ok rest IH]; intros s l1 l2 Heq x Hx.
  - simpl in Heq. destruct l1 as [| y l1]; simpl in Heq.
    + inversion Heq; subst. contradiction.
    + inversion Heq as [[Hy Hnil]]. destruct l1; discriminate.
  - simpl in Heq. destruct l1 as [| y l1]; simpl in Heq.
    + inversion Heq as [[Hs Hl2]]. subst s. simpl in Hl2.
      rewrite execute_terminal in Hl2 by auto. subst l2.
      now apply repeat_spec in Hx.
    + inversion Heq as [[Hy Htl]]. eapply IH; eassumption.
Qed.

Lemma topology_pipeline (t : Template) (p : Pipeline) :
  In t pipelineTopologies -> In p (pipelines t) ->
  p = CdkWoocommerceStack1.pipeline \/ p = CdkWoocommerceCicdStack.pipeline.
Proof.
  intros [<- | [<- | []]] [<- | []]; auto.
Qed.

(** C3: in both topologies with a pipeline the stages are Source,
    Build, Deploy; whatever the stages' outcomes, an execution visits a
    non-empty initial segment of that list, each stage once and in that
    order; a failure moves the execution from any stage to [Failed],
    from where it does not move, and whatever follows [Failed] in the
    trace of an execution is [Failed]. *)
Theorem C3_stage_order (t : Template) (p : Pipeline) (outcomes : list bool) :
  In t pipelineTopologies -> In p (pipelines t) ->
  map stageName (stages p) = ["Source"; "Build"; "Deploy"]
  /\ (exists k, 1 <= k <= 3
                /\ visitedStages p (execute p (InStage 0) outcomes)
                   = firstn k ["Source"; "Build"; "Deploy"])
  /\ execute p (InStage 0) [true; true; true]
     = [InStage 0; InStage 1; InStage 2; Succeeded]
  /\ (forall i, i < 3 -> advance p (InStage i) false = Failed)
  /\ (forall ok, advance p Failed ok = Failed)
  /\ execute p Failed outcomes = repeat Failed (S (length outcomes))
  /\ (forall l1 l2,
        execute p (InStage 0) outcomes = (l1 ++ Failed :: l2)%list ->
        forall s, In s l2 -> s = Failed).
Proof.
  intros Ht Hp.
  assert (Hlen : length (stages p) = 3
                 /\ map stageName (stages p) = ["Source"; "Build"; "Deploy"]).
  { destruct (topology_pipeline t p Ht Hp) as [-> | ->]; split; reflexivity. }
  destruct Hlen as [Hlen Hnames].
  split; [exact Hnames |]. split; [| split; [| split; [| split; [| split]]]].
  - destruct (execute_indices p outcomes 0) as (k & Hk1 & Hk2 & Hk3); [lia |].
    rewrite Hlen in Hk2.
    exists k. split; [lia |]. unfold visitedStages. rewrite Hk3.
    destruct (topology_pipeline t p Ht Hp) as [-> | ->];
      (destruct k as [| [| [| [| k]]]];
       [lia | reflexivity | reflexivity | reflexivity | lia]).
  - destruct (topology_pipeline t p Ht Hp) as [-> | ->]; reflexivity.
  - intros i _. reflexivity.
  - intros ok. reflexivity.
  - apply execute_terminal. auto.
  - apply execute_after_failed.
Qed.

(** C3 at the pipeline of the container topology, with a failing build. *)
Lemma C3_stage_order_witness :
  execute CdkWoocommerceCicdStack.pipeline Failed [true; false]
  = repeat Failed 3.
Proof.
  refine (proj1 (proj2 (proj2 (proj2 (proj2 (proj2
            (C3_stage_order containerTopology CdkWoocommerceCicdStack.pipeline
               [true; false] _ _))))))).
  - simpl. right. left. reflexivity.
  - simpl. left. reflexivity.
Defined.

(** * Properties of the build stage *)

Lemma runCommands_prefix (ok : Command -> bool) (cs : list Command) :
  exists rest, cs = (fst (runCommands ok cs) ++ rest)%list.
Proof.
  induction cs as [| c cs IH]; simpl.
  - now exists [].
  - destruct (ok c).
    + destruct IH as (rest & Hrest). destruct (runCommands ok cs) as [started success].
      exists rest. simpl in *. now rewrite <- Hrest.
    + now exists cs.
Qed.

Lemma runCommands_all (ok : Command -> bool) (cs : list Command) :
  forallb ok cs = true -> runCommands ok cs = (cs, true).
Proof.
  induction cs as [| c cs IH]; simpl; intros H.
  - reflexivity.
  - apply andb_prop in H. destruct H as [Hc Hcs]. rewrite Hc, (IH Hcs). reflexivity.
Qed.

Lemma runCommands_fail (ok : Command -> bool) (pre post : list Command) (c : Command) :
  forallb ok pre = true -> ok c = false ->
  runCommands ok (pre ++ c :: post) = ((pre ++ [c])%list, false).
Proof.
  induction pre as [| a pre IH]; simpl; intros Hpre Hc.
  - now rewrite Hc.
  - apply andb_prop in Hpre. destruct Hpre as [Ha Hpre].
    now rewrite Ha, (IH Hpre Hc).
Qed.

Lemma runBuild_fail (ok : Command -> bool) (env : ShellEnv) (b : BuildSpec)
    (started : list Command) :
  runCommands ok (commands b) = (started, false) ->
  runBuild ok env b = Some StageFailed.
Proof. intros H. unfold runBuild. now rewrite H. Qed.

Lemma topology_project (t : Template) (p : PipelineProject) :
  In t pipelineTopologies -> In p (projects t) ->
  p = CdkWoocommerceStack1.buildProject \/ p = CdkWoocommerceCicdStack.buildProject.
Proof.
  intros [<- | [<- | []]] [<- | []]; auto.
Qed.

(** C4: in both topologies with a pipeline the command lines of the
    build specification, the [echo] lines left out, are: install the
    dependencies, log in to the registry, build the image, tag it with
    the resolved source revision, push the latest image, push the
    revision-tagged image (the container topology then writes the
    descriptor).  The commands that are started are an initial segment
    of that sequence; when a command fails, the commands before it and
    the failing one are all that is started, the stage fails, and the
    execution moves from Build to [Failed]. *)
Theorem C4_build_commands_in_order (t : Template) (pl : Pipeline)
    (p : PipelineProject) (ok : Command -> bool) (env : ShellEnv) :
  In t pipelineTopologies -> In pl (pipelines t) -> In p (projects t) ->
  let cs := commands (buildSpec p) in
  let repo (tag : Word) : Word := Ref "REPOSITORY_URI" :: Lit ":" :: tag in
  firstn 6 (steps (buildSpec p))
  = [NpmInstall;
     EcrLogin [Ref "AWS_DEFAULT_REGION"] [Ref "REPOSITORY_URI"];
     DockerBuild (repo [Lit "latest"]) ".";
     DockerTag (repo [Lit "latest"]) (repo [Ref "CODEBUILD_RESOLVED_SOURCE_VERSION"]);
     DockerPush (repo [Lit "latest"]);
     DockerPush (repo [Ref "CODEBUILD_RESOLVED_SOURCE_VERSION"])]
  /\ (forall c, In c (skipn 6 (steps (buildSpec p))) ->
        exists fmt args file, c = PrintfTo fmt args file)
  /\ (exists rest, cs = (fst (runCommands ok cs) ++ rest)%list)
  /\ (forallb ok cs = true -> runCommands ok cs = (cs, true))
  /\ (forall pre c post,
        cs = (pre ++ c :: post)%list -> forallb ok pre = true -> ok c = false ->
        runCommands ok cs = ((pre ++ [c])%list, false)
        /\ runBuild ok env (buildSpec p) = Some StageFailed
        /\ nth_error (map stageName (stages pl)) 1 = Some "Build"
        /\ advance pl (InStage 1) false = Failed).
Proof.
  intros Ht Hpl Hp cs repo.
  split; [| split; [| split; [| split]]].
  - destruct (topology_project t p Ht Hp) as [-> | ->]; reflexivity.
  - destruct (topology_project t p Ht Hp) as [-> | ->]; simpl; intros c Hc.
    + contradiction.
    + destruct Hc as [<- | []]. eauto.
  - apply runCommands_prefix.
  - apply runCommands_all.
  - intros pre c post Hcs Hpre Hc.
    assert (Hrun : runCommands ok cs = ((pre ++ [c])%list, false)).
    { rewrite Hcs. now apply runCommands_fail. }
    split; [exact Hrun |]. split; [eapply runBuild_fail; exact Hrun |].
    split; [| reflexivity].
    destruct (topology_pipeline t pl Ht Hpl) as [-> | ->]; reflexivity.
Qed.

(** C4 at the container topology, when the image build fails. *)
Lemma C4_build_commands_in_order_witness :
  runCommands (fun c => match c with DockerBuild _ _ => false | _ => true end)
    (commands (buildSpec CdkWoocommerceCicdStack.buildProject))
  = ([Echo "Installing dependencies"; NpmInstall;
      Echo "Logging in to Amazon ECR";
      EcrLogin [Ref "AWS_DEFAULT_REGION"] [Ref "REPOSITORY_URI"];
      Echo "Building Docker image";
      DockerBuild [Ref "REPOSITORY_URI"; Lit ":"; Lit "latest"] "."], false).
Proof.
  refine (proj1 (proj2 (proj2 (proj2 (proj2
            (C4_build_commands_in_order containerTopology
               CdkWoocommerceCicdStack.pipeline CdkWoocommerceCicdStack.buildProject
               (fun c => match c with DockerBuild _ _ => false | _ => true end)
               [] _ _ _))))
            [Echo "Installing dependencies"; NpmInstall;
             Echo "Logging in to Amazon ECR";
             EcrLogin [Ref "AWS_DEFAULT_REGION"] [Ref "REPOSITORY_URI"];
             Echo "Building Docker image"]
            (DockerBuild [Ref "REPOSITORY_URI"; Lit ":"; Lit "latest"] ".")
            _ _ _ _)).
  - simpl. right. left. reflexivity.
  - simpl. left. reflexivity.
  - simpl. left. reflexivity.
  - reflexivity.
  - reflexivity.
  - reflexivity.
Defined.

(** * Properties of the deployment descriptor *)

Lemma anyChar_app (f : ascii -> bool) (a b : string) :
  anyChar f (a ++ b) = anyChar f a || anyChar f b.
Proof.
  induction a as [| c a IH]; simpl; [reflexivity |].
  now rewrite IH, orb_assoc.
Qed.

Lemma string_app_nil_r (a : string) : a ++ "" = a.
Proof. induction a as [| x a IH]; simpl; [reflexivity | now rewrite IH]. Qed.

(** A value without blanks is one field. *)
Lemma splitFields_plain (s cur : string) :
  anyChar isIFS s = false ->
  splitFields s cur = match cur ++ s with EmptyString => [] | f => [f] end.
Proof.
  revert cur. induction s as [| c s IH]; intros cur Hs.
  - simpl. rewrite string_app_nil_r. destruct cur; reflexivity.
  - simpl in Hs. apply orb_false_elim in Hs. destruct Hs as [Hc Hs].
    simpl. rewrite Hc. rewrite (IH _ Hs).
    now rewrite string_app_assoc.
Qed.

Lemma expand_plain (env : ShellEnv) (w : Word) :
  shellPlain (substitute env w) -> substitute env w <> "" ->
  expand env w = Some [substitute env w].
Proof.
  intros [Hifs Hglob] Hne. unfold expand. rewrite Hglob.
  rewrite splitFields_plain by exact Hifs. simpl.
  destruct (substitute env w); [contradiction | reflexivity].
Qed.

Lemma shellPlain_tagged (uri tag : string) :
  shellPlain uri -> shellPlain tag -> shellPlain (uri ++ ":" ++ tag).
Proof.
  intros [Hu1 Hu2] [Ht1 Ht2]. split.
  - rewrite anyChar_app, Hu1. simpl. exact Ht1.
  - rewrite anyChar_app, Hu2. simpl. exact Ht2.
Qed.

(** [printf] of the descriptor format with one argument. *)
Lemma printf_imageDefinitions (uri : string) :
  printf CdkWoocommerceCicdStack.imageDefinitionsFormat [uri]
  = renderImageDefinitions [{| name := "WooCommerceContainer"; imageUri := uri |}].
Proof.
  unfold renderImageDefinitions, renderImageDefinition.
  cbn [map String.concat name imageUri].
  rewrite !string_app_assoc. reflexivity.
Qed.

(** C5: in the container topology, for a repository address and a
    revision that are plain shell words, a build whose commands all
    succeed hands over exactly one file, [imagedefinitions.json], whose
    text is the descriptor with the single entry that pairs the
    container of the task, WooCommerceContainer, with the image
    address made of the repository address, a colon and the revision. *)
Theorem C5_descriptor_names_revision (ok : Command -> bool)
    (resolveToken : Token -> string) (region revision : string) :
  let b := buildSpec CdkWoocommerceCicdStack.buildProject in
  let uri := resolveToken (repositoryUri "WooCommerceRepo") in
  let entry := {| name := "WooCommerceContainer"; imageUri := uri ++ ":" ++ revision |} in
  shellPlain uri -> shellPlain revision ->
  forallb ok (commands b) = true ->
  projects containerTopology = [CdkWoocommerceCicdStack.buildProject]
  /\ runBuild ok
       (buildEnvironment resolveToken CdkWoocommerceCicdStack.buildProject
          region revision) b
     = Some (StageSucceeded
               [("imagedefinitions.json", renderImageDefinitions [entry])])
  /\ map containerName (containers containerTopology) = [name entry]
  /\ (exists pre, imageUri entry = pre ++ ":" ++ revision).
Proof.
  intros b uri entry Huri Hrev Hok.
  split; [reflexivity |]. split; [| split; [reflexivity | now exists uri]].
  unfold runBuild. rewrite (runCommands_all ok (commands b) Hok).
  assert (Hexp :
    expand (buildEnvironment resolveToken CdkWoocommerceCicdStack.buildProject
              region revision)
           (CdkWoocommerceCicdStack.repositoryTag
              [Ref "CODEBUILD_RESOLVED_SOURCE_VERSION"])
    = Some [uri ++ ":" ++ revision]).
  { apply expand_plain.
    - apply (shellPlain_tagged uri revision Huri Hrev).
    - change (uri ++ ":" ++ revision <> "").
      destruct (resolveToken (repositoryUri "WooCommerceRepo")); discriminate. }
  unfold b. cbn -[expand buildEnvironment printf renderImageDefinitions
                  CdkWoocommerceCicdStack.imageDefinitionsFormat].
  rewrite Hexp.
  cbn -[printf renderImageDefinitions CdkWoocommerceCicdStack.imageDefinitionsFormat].
  now rewrite printf_imageDefinitions.
Qed.

(** C5 at revision abc123. *)
Lemma C5_descriptor_names_revision_witness :
  runBuild (fun _ => true)
    (buildEnvironment (fun _ => "registry.example/woocommerce")
       CdkWoocommerceCicdStack.buildProject "us-east-1" "abc123")
    (buildSpec CdkWoocommerceCicdStack.buildProject)
  = Some (StageSucceeded
            [("imagedefinitions.json",
              renderImageDefinitions
                [{| name := "WooCommerceContainer";
                    imageUri := "registry.example/woocommerce:abc123" |}])]).
Proof.
  refine (proj1 (proj2 (C5_descriptor_names_revision (fun _ => true)
                          (fun _ => "registry.example/woocommerce")
                          "us-east-1" "abc123" _ _ _))).
  - split; reflexivity.
  - split; reflexivity.
  - reflexivity.
Defined.

(** * Further properties of the routing rules *)

(** A pattern made of literal text and a final [*] matches exactly the
    paths that start with that text. *)
Lemma globMatch_literal_star (lit s : string) :
  anyChar (fun c => Ascii.eqb c "*" || Ascii.eqb c "?") lit = false ->
  globMatch (lit ++ "*") s = String.prefix lit s.
Proof.
  revert s. induction lit as [| c lit IH]; intros s Hlit.
  - simpl append. rewrite globMatch_star. now destruct s.
  - simpl in Hlit. apply orb_false_elim in Hlit. destruct Hlit as [Hc Hlit].
    apply orb_false_elim in Hc. destruct Hc as [Hstar Hq].
    simpl. rewrite Hstar, Hq. destruct s as [| d s]; [reflexivity |].
    change (String.prefix (String c lit) (String d s))
      with (if ascii_dec c d then String.prefix lit s else false).
    destruct (ascii_dec c d) as [Heq | Hne].
    + subst d. rewrite Ascii.eqb_refl. simpl. now apply IH.
    + apply Ascii.eqb_neq in Hne. now rewrite Hne.
Qed.

Lemma topology_gateway_distribution (t : Template) (d : Distribution) :
  In t gatewayTopologies -> In d (distributions t) ->
  d = CdkWoocommerceStack.distribution.
Proof.
  intros [<- | [<- | []]] [<- | []]; reflexivity.
Qed.

Lemma gateway_patterns_prefix (path : string) :
  globMatch "/api/products/*" path = String.prefix "/api/products/" path
  /\ globMatch "/api/orders/*" path = String.prefix "/api/orders/" path
  /\ globMatch "/api/cart/*" path = String.prefix "/api/cart/" path.
Proof.
  repeat split.
  - exact (globMatch_literal_star "/api/products/" path eq_refl).
  - exact (globMatch_literal_star "/api/orders/" path eq_refl).
  - exact (globMatch_literal_star "/api/cart/" path eq_refl).
Qed.

(** In the gateway topologies a path is routed by its prefix alone: to
    the gateway with the optimized cache policy under [/api/products/],
    to the gateway with caching disabled under [/api/orders/] and
    [/api/cart/], and to the bucket in every other case, which includes
    [/api/products] itself and the paths of resources the gateway does
    not have. *)
Theorem gateway_routing_table (t : Template) (d : Distribution) (path : string) :
  In t gatewayTopologies -> In d (distributions t) ->
  let gateway (c : CachePolicy) :=
    {| origin := HttpOrigin [Ref (restApiId "WooCommerceApi"); Lit ".execute-api.";
                             Ref stackRegion; Lit ".amazonaws.com"];
       allowedMethods := Some ALLOW_ALL;
       viewerProtocolPolicy := Some HTTPS_ONLY;
       cachePolicy := Some c |} in
  resolve d path
  = if String.prefix "/api/products/" path then gateway CACHING_OPTIMIZED
    else if String.prefix "/api/orders/" path then gateway CACHING_DISABLED
    else if String.prefix "/api/cart/" path then gateway CACHING_DISABLED
    else {| origin := S3Origin "WooCommerceAssets";
            allowedMethods := None;
            viewerProtocolPolicy := Some REDIRECT_TO_HTTPS;
            cachePolicy := None |}.
Proof.
  intros Ht Hd gateway. rewrite (topology_gateway_distribution t d Ht Hd).
  destruct (gateway_patterns_prefix path) as (Hp & Ho & Hc).
  unfold resolve. cbn -[globMatch String.prefix].
  rewrite Hp. destruct (String.prefix "/api/products/" path); [reflexivity |].
  rewrite Ho. destruct (String.prefix "/api/orders/" path); [reflexivity |].
  rewrite Hc. destruct (String.prefix "/api/cart/" path); reflexivity.
Qed.

(** The path of the products collection itself goes to the bucket. *)
Lemma gateway_routing_table_witness :
  resolve CdkWoocommerceStack.distribution "/api/products"
  = {| origin := S3Origin "WooCommerceAssets";
       allowedMethods := None;
       viewerProtocolPolicy := Some REDIRECT_TO_HTTPS;
       cachePolicy := None |}.
Proof.
  refine (gateway_routing_table gatewayTopology CdkWoocommerceStack.distribution
            "/api/products" _ _).
  - simpl. left. reflexivity.
  - simpl. left. reflexivity.
Defined.

(** In the container topology a path goes to the load balancer, with
    caching disabled, exactly when it starts with [/api/], and to the
    bucket otherwise. *)
Theorem container_routing_table (path : string) :
  resolve CdkWoocommerceCicdStack.distribution path
  = if String.prefix "/api/" path
    then {| origin := LoadBalancerV2Origin "WooCommerceService";
            allowedMethods := Some ALLOW_ALL;
            viewerProtocolPolicy := Some HTTPS_ONLY;
            cachePolicy := Some CACHING_DISABLED |}
    else {| origin := S3Origin "WooCommerceAssets";
            allowedMethods := None;
            viewerProtocolPolicy := Some REDIRECT_TO_HTTPS;
            cachePolicy := None |}.
Proof.
  assert (Hm : globMatch "/api/*" path = String.prefix "/api/" path)
    by exact (globMatch_literal_star "/api/" path eq_refl).
  unfold resolve. cbn -[globMatch String.prefix].
  rewrite Hm. destruct (String.prefix "/api/" path); reflexivity.
Qed.

(** When at most one element of a list satisfies a test, the element
    found does not depend on the order of the list. *)
Lemma find_unique_Permutation {A} (f : A -> bool) (l l' : list A) :
  Permutation l l' ->
  (forall x y, In x l -> In y l -> f x = true -> f y = true -> x = y) ->
  find f l = find f l'.
Proof.
  induction 1 as [| x l l' Hperm IH | x y l | l1 l2 l3 H12 IH12 H23 IH23]; intros Huniq.
  - reflexivity.
  - simpl. destruct (f x); [reflexivity |].
    apply IH. intros a b Ha Hb. apply Huniq; now right.
  - simpl. destruct (f x) eqn:Hx, (f y) eqn:Hy; try reflexivity.
    f_equal. apply Huniq; simpl; auto.
  - rewrite IH12 by exact Huniq. apply IH23.
    intros a b Ha Hb. apply Huniq; eapply Permutation_in;
      try eassumption; now apply Permutation_sym.
Qed.

(** In the gateway topologies the three resource rules can be written
    in any order: no path is matched by two of them, so every path
    resolves to the same rule. *)
Theorem gateway_rule_order_immaterial (t : Template) (d : Distribution)
    (l : list (string * Behavior)) (path : string) :
  In t gatewayTopologies -> In d (distributions t) ->
  Permutation (additionalBehaviors d) l ->
  resolve {| distributionId := distributionId d;
             defaultBehavior := defaultBehavior d;
             additionalBehaviors := l |} path
  = resolve d path.
Proof.
  intros Ht Hd Hperm. rewrite (topology_gateway_distribution t d Ht Hd) in *.
  unfold resolve. cbn [additionalBehaviors defaultBehavior].
  rewrite <- (find_unique_Permutation _ _ _ Hperm); [reflexivity |].
  intros x y Hx Hy Mx My. now apply (gateway_patterns_exclusive path).
Qed.

(** The rules in reverse order. *)
Lemma gateway_rule_order_immaterial_witness :
  resolve {| distributionId := distributionId CdkWoocommerceStack.distribution;
             defaultBehavior := defaultBehavior CdkWoocommerceStack.distribution;
             additionalBehaviors :=
               rev (additionalBehaviors CdkWoocommerceStack.distribution) |}
          "/api/cart/7"
  = resolve CdkWoocommerceStack.distribution "/api/cart/7".
Proof.
  refine (gateway_rule_order_immaterial gatewayTopology
            CdkWoocommerceStack.distribution _ "/api/cart/7" _ _ _).
  - simpl. left. reflexivity.
  - simpl. left. reflexivity.
  - apply Permutation_rev.
Defined.

(** * Further properties of the deployment descriptor *)

(** One pass of [printf] over the descriptor format writes the
    descriptor for its first argument and leaves the others. *)
Lemma printfOnce_imageDefinitions (a : string) (rest : list string) :
  printfOnce CdkWoocommerceCicdStack.imageDefinitionsFormat (a :: rest)
  = (imageDefinitionsFor a, rest).
Proof.
  unfold imageDefinitionsFor, renderImageDefinitions, renderImageDefinition.
  cbn [map String.concat name imageUri].
  rewrite !string_app_assoc. reflexivity.
Qed.

Lemma printfLoop_imageDefinitions (rest : list string) :
  forall (a : string) (n : nat),
    length rest <= n ->
    printfLoop n CdkWoocommerceCicdStack.imageDefinitionsFormat (a :: rest)
    = String.concat "" (map imageDefinitionsFor (a :: rest)).
Proof.
  pose proof printfOnce_imageDefinitions as Honce.
  remember CdkWoocommerceCicdStack.imageDefinitionsFormat as fmt eqn:Hfmt.
  clear Hfmt.
  induction rest as [| b rest IH]; intros a n Hn.
  - destruct n; simpl printfLoop; rewrite Honce; reflexivity.
  - destruct n as [| n]; [simpl in Hn; lia |].
    simpl printfLoop. rewrite Honce.
    rewrite IH by (simpl in Hn; lia).
    destruct (Nat.ltb_spec (length (b :: rest)) (S (S (length rest))))
      as [_ | Hge]; [reflexivity | simpl in Hge; lia].
Qed.

Lemma splitFields_nonempty (s cur : string) :
  cur <> "" \/ anyChar (fun c => negb (isIFS c)) s = true ->
  splitFields s cur <> [].
Proof.
  revert cur. induction s as [| c s IH]; intros cur H.
  - destruct H as [H | H]; [| discriminate]. simpl. now destruct cur.
  - simpl. destruct (isIFS c) eqn:Hc.
    + destruct cur as [| x cur]; [| discriminate].
      apply IH. destruct H as [H | H]; [now contradiction H |].
      simpl in H. rewrite Hc in H. now right.
    + apply IH. left. now destruct cur.
Qed.

(** The descriptor file after all commands of the container build have
    run, for any repository address and revision without pattern
    characters: the unquoted argument of [printf] is split at blanks and
    the format is applied once per field, so the file holds one
    one-entry array per field, and a single array only when the address
    and the revision contain no blank. *)
Theorem descriptor_one_array_per_field (resolveToken : Token -> string)
    (region revision : string) :
  let env := buildEnvironment resolveToken CdkWoocommerceCicdStack.buildProject
               region revision in
  let word := resolveToken (repositoryUri "WooCommerceRepo") ++ ":" ++ revision in
  anyChar isGlobChar word = false ->
  effects env (commands (buildSpec CdkWoocommerceCicdStack.buildProject)) []
  = Some [("imagedefinitions.json",
           String.concat "" (map imageDefinitionsFor (splitFields word "")))].
Proof.
  intros env word Hglob.
  assert (Hne : splitFields word "" <> []).
  { apply splitFields_nonempty. right. unfold word.
    rewrite anyChar_app. simpl. apply orb_true_r. }
  assert (Hexp :
    expand env (CdkWoocommerceCicdStack.repositoryTag
                  [Ref "CODEBUILD_RESOLVED_SOURCE_VERSION"])
    = Some (splitFields word "")).
  { unfold expand.
    change (substitute env (CdkWoocommerceCicdStack.repositoryTag
                              [Ref "CODEBUILD_RESOLVED_SOURCE_VERSION"]))
      with word.
    now rewrite Hglob. }
  cbn -[expand env printf CdkWoocommerceCicdStack.imageDefinitionsFormat
        imageDefinitionsFor].
  rewrite Hexp, app_nil_r.
  destruct (splitFields word "") as [| a rest]; [contradiction |].
  unfold printf. rewrite printfLoop_imageDefinitions by (simpl; lia).
  reflexivity.
Qed.

(** A revision with a blank gives two arrays. *)
Lemma descriptor_one_array_per_field_witness :
  effects (buildEnvironment (fun _ => "registry.example/woocommerce")
             CdkWoocommerceCicdStack.buildProject "us-east-1" "abc 123")
          (commands (buildSpec CdkWoocommerceCicdStack.buildProject)) []
  = Some [("imagedefinitions.json",
           String.concat ""
             (map imageDefinitionsFor
                (splitFields "registry.example/woocommerce:abc 123" "")))].
Proof.
  refine (descriptor_one_array_per_field (fun _ => "registry.example/woocommerce")
            "us-east-1" "abc 123" _).
  reflexivity.
Defined.

(** * Further properties of the build environment *)

(** Every variable that a command line of a build specification reads
    is bound in the environment of the build; [REPOSITORY_URI] is bound
    by the project itself, to the address of the repository that the
    build identity is granted, and the revision variable is not
    shadowed by a variable of the project. *)
Theorem build_variables_bound (t : Template) (p : PipelineProject)
    (resolveToken : Token -> string) (region revision : string)
    (c : Command) (x : string) :
  In t pipelineTopologies -> In p (projects t) ->
  In c (commands (buildSpec p)) -> In x (commandRefs c) ->
  let env := buildEnvironment resolveToken p region revision in
  In x (map fst env)
  /\ map fst (environmentVariables p) = ["REPOSITORY_URI"]
  /\ getenv env "REPOSITORY_URI" = resolveToken (repositoryUri "WooCommerceRepo")
  /\ In (repositoryArn "WooCommerceRepo") (grantedResources t buildIdentity)
  /\ getenv env "CODEBUILD_RESOLVED_SOURCE_VERSION" = revision
  /\ getenv env "AWS_DEFAULT_REGION" = region.
Proof.
  intros Ht Hp Hc Hx env.
  assert (Hgrant : In (repositoryArn "WooCommerceRepo") (grantedResources t buildIdentity)).
  { destruct Ht as [<- | [<- | []]]; simpl; auto. }
  destruct (topology_project t p Ht Hp) as [-> | ->];
    (split; [| repeat split; try reflexivity; exact Hgrant]);
    simpl in Hc;
    repeat (destruct Hc as [<- | Hc];
            [simpl in Hx; repeat (destruct Hx as [<- | Hx]; [simpl; tauto |]);
             contradiction |]);
    contradiction.
Qed.

(** The revision variable of the second push of the container build. *)
Lemma build_variables_bound_witness :
  In "CODEBUILD_RESOLVED_SOURCE_VERSION"
     (map fst (buildEnvironment (fun _ => "registry.example/woocommerce")
                 CdkWoocommerceCicdStack.buildProject "us-east-1" "abc123")).
Proof.
  refine (proj1 (build_variables_bound containerTopology
                   CdkWoocommerceCicdStack.buildProject
                   (fun _ => "registry.example/woocommerce") "us-east-1" "abc123"
                   (DockerPush (CdkWoocommerceCicdStack.repositoryTag
                                  [Ref "CODEBUILD_RESOLVED_SOURCE_VERSION"]))
                   "CODEBUILD_RESOLVED_SOURCE_VERSION" _ _ _ _)).
  - simpl. right. left. reflexivity.
  - simpl. left. reflexivity.
  - simpl. do 9 right. left. reflexivity.
  - simpl. right. left. reflexivity.
Defined.

(** * Further properties of the grants *)

(** The statements that the grant calls of the constructors add, in
    every topology, name constructs of the same stack: each is attached
    to the identity of a function, task definition or project created
    there, and every resource it lists is the identifier of a table or
    repository created there.  Every topology has such statements. *)
Theorem grants_reference_registered_constructs (t : Template) (st : PolicyStatement) :
  In t topologies -> In st (policies t) ->
  registeredGrantee t (principal st) = true
  /\ 3 <= length (policies t)
  /\ resources st <> []
  /\ (forall r, In r (resources st) -> registeredArn t r = true).
Proof.
  intros Ht Hst.
  assert (H : forallb (fun s => registeredGrantee t (principal s)
                                && negb (Nat.eqb (length (resources s)) 0)
                                && forallb (registeredArn t) (resources s))
                      (policies t) = true).
  { destruct Ht as [<- | [<- | [<- | []]]]; reflexivity. }
  rewrite forallb_forall in H. specialize (H st Hst).
  apply andb_prop in H. destruct H as [H Hres].
  apply andb_prop in H. destruct H as [Hg Hne].
  split; [exact Hg |]. split; [| split].
  - destruct Ht as [<- | [<- | [<- | []]]]; simpl; lia.
  - intros Hnil. rewrite Hnil in Hne. discriminate.
  - now apply forallb_forall.
Qed.

(** The statement of the orders function. *)
Lemma grants_reference_registered_constructs_witness :
  registeredGrantee gatewayTopology (FunctionRole "OrdersFunction") = true.
Proof.
  refine (proj1 (grants_reference_registered_constructs gatewayTopology
                   {| principal := FunctionRole "OrdersFunction";
                      actions := [ReadData; WriteData];
                      resources := [tableArn "OrdersTable"] |} _ _)).
  - simpl. left. reflexivity.
  - simpl. right. left. reflexivity.
Defined.

Ltac one_unit T k :=
  exists (nth k (computeUnits T) (FunctionUnit CdkWoocommerceStack.productsFunction));
  split; [vm_compute; auto 10 |]; split; [vm_compute; auto 10 |];
  split; [vm_compute; auto 10 |]; split;
  [ let st := fresh "st" in
    let Hst := fresh "Hst" in
    let Hres := fresh "Hres" in
    intros st Hst Hres; enumerate Hst;
    vm_compute in Hres; try reflexivity; exfalso; intuition discriminate
  | let v := fresh "v" in
    let Hv := fresh "Hv" in
    let Hin := fresh "Hin" in
    intros v Hv Hin; enumerate Hv;
    vm_compute in Hin; try reflexivity; exfalso; intuition discriminate ].

(** Every table of every topology is granted to one compute unit and
    to no other identity: some unit is granted the table and names it
    in its environment, every statement on the table is attached to
    that unit's identity, and no other unit is granted it. *)
Theorem table_granted_to_one_unit (t : Template) (tbl : Table) :
  In t topologies -> In tbl (tables t) ->
  exists u,
    In u (computeUnits t)
    /\ In (tableId tbl) (grantedTables t (identity u))
    /\ In (tableId tbl) (namedTables (environment u))
    /\ (forall st, In st (policies t) ->
          In (tableArn (tableId tbl)) (resources st) -> principal st = identity u)
    /\ (forall v, In v (computeUnits t) ->
          In (tableId tbl) (grantedTables t (identity v)) -> v = u).
Proof.
  intros Ht Htbl.
  destruct Ht as [<- | [<- | [<- | []]]];
    vm_compute in Htbl; destruct Htbl as [<- | [<- | [<- | []]]].
  - one_unit gatewayTopology 0.
  - one_unit gatewayTopology 1.
  - one_unit gatewayTopology 2.
  - one_unit gatewayPipelineTopology 0.
  - one_unit gatewayPipelineTopology 1.
  - one_unit gatewayPipelineTopology 2.
  - one_unit containerTopology 0.
  - one_unit containerTopology 0.
  - one_unit containerTopology 0.
Qed.

(** The carts table of the pipeline topology with functions. *)
Lemma table_granted_to_one_unit_witness :
  exists u,
    In u (computeUnits gatewayPipelineTopology)
    /\ In "CartTable" (grantedTables gatewayPipelineTopology (identity u))
    /\ In "CartTable" (namedTables (environment u))
    /\ (forall st, In st (policies gatewayPipelineTopology) ->
          In (tableArn "CartTable") (resources st) -> principal st = identity u)
    /\ (forall v, In v (computeUnits gatewayPipelineTopology) ->
          In "CartTable" (grantedTables gatewayPipelineTopology (identity v)) -> v = u).
Proof.
  refine (table_granted_to_one_unit gatewayPipelineTopology
            CdkWoocommerceStack1.cartTable _ _).
  - simpl. right. left. reflexivity.
  - simpl. right. right. left. reflexivity.
Defined.

(** * Further properties of the gateway *)

(** In the gateway topologies the rules of the distribution and the
    resources of the gateway correspond one to one, in the same order:
    the rule patterns are [/api/<resource>/*] for the resources.  Every
    resource has a GET and a POST method on one function of the stack,
    no method has another verb, and two methods are served by the same
    function exactly when they belong to the same resource. *)
Theorem gateway_resources_and_rules (t : Template) (d : Distribution) :
  In t gatewayTopologies -> In d (distributions t) ->
  map fst (additionalBehaviors d)
  = map (fun r => "/api/" ++ r ++ "/*") (apiResources t)
  /\ NoDup (apiResources t)
  /\ (forall m, In m (apiMethods t) ->
        In (methodResource m) (apiResources t)
        /\ (httpMethod m = GET \/ httpMethod m = POST)
        /\ registeredGrantee t (FunctionRole (lambdaIntegration m)) = true)
  /\ (forall r, In r (apiResources t) ->
        exists f,
          In {| methodResource := r; httpMethod := GET; lambdaIntegration := f |}
             (apiMethods t)
          /\ In {| methodResource := r; httpMethod := POST; lambdaIntegration := f |}
                (apiMethods t))
  /\ (forall m1 m2, In m1 (apiMethods t) -> In m2 (apiMethods t) ->
        (methodResource m1 = methodResource m2
         <-> lambdaIntegration m1 = lambdaIntegration m2)).
Proof.
  intros Ht Hd. rewrite (topology_gateway_distribution t d Ht Hd).
  assert (Hm : apiMethods t = apiMethods gatewayTopology
               /\ apiResources t = apiResources gatewayTopology
               /\ functions t = functions gatewayTopology).
  { destruct Ht as [<- | [<- | []]]; repeat split; reflexivity. }
  destruct Hm as (Hm & Hr & Hf).
  unfold registeredGrantee. rewrite Hm, Hr, Hf. clear Ht Hd Hm Hr Hf t d.
  split; [reflexivity |]. split; [| split; [| split]].
  - vm_compute. repeat constructor; simpl; intuition discriminate.
  - intros m Hin. enumerate Hin; vm_compute; auto 10.
  - intros r Hin. enumerate Hin; eexists; split; vm_compute; auto 10.
  - intros m1 m2 H1 H2. enumerate H1; enumerate H2; vm_compute;
      split; intros H; first [reflexivity | discriminate H].
Qed.

(** The rules and resources of the gateway stack. *)
Lemma gateway_resources_and_rules_witness :
  map fst (additionalBehaviors CdkWoocommerceStack.distribution)
  = map (fun r => "/api/" ++ r ++ "/*") (apiResources gatewayTopology).
Proof.
  refine (proj1 (gateway_resources_and_rules gatewayTopology
                   CdkWoocommerceStack.distribution _ _)).
  - simpl. left. reflexivity.
  - simpl. left. reflexivity.
Defined.

(** * Further properties of the pipelines *)

(** In both pipelines every stage has one action, and every artifact
    an action takes as input is an output of the stage just before it.
    In the container pipeline every artifact produced is consumed by
    the next stage; in the pipeline of the function topology the output
    of the build is produced and consumed by no action. *)
Theorem pipeline_artifact_flow (t : Template) (pl : Pipeline) :
  In t pipelineTopologies -> In pl (pipelines t) ->
  (forall st, In st (stages pl) -> length (stageActions st) = 1)
  /\ (forall i st a,
        nth_error (stages pl) i = Some st -> In a (stageInputs st) ->
        exists j st',
          i = S j /\ nth_error (stages pl) j = Some st' /\ In a (stageOutputs st'))
  /\ (forall i st a,
        nth_error (stages CdkWoocommerceCicdStack.pipeline) i = Some st ->
        In a (stageOutputs st) ->
        exists st',
          nth_error (stages CdkWoocommerceCicdStack.pipeline) (S i) = Some st'
          /\ In a (stageInputs st'))
  /\ In CdkWoocommerceStack1.buildOutput
        (flat_map stageOutputs (stages CdkWoocommerceStack1.pipeline))
  /\ (forall st, In st (stages CdkWoocommerceStack1.pipeline) ->
        ~ In CdkWoocommerceStack1.buildOutput (stageInputs st)).
Proof.
  intros Ht Hpl. split; [| split; [| split; [| split]]].
  - intros st Hst.
    destruct (topology_pipeline t pl Ht Hpl) as [-> | ->]; enumerate Hst; reflexivity.
  - intros i st a Hi Ha.
    destruct (topology_pipeline t pl Ht Hpl) as [-> | ->].
    + destruct i as [| [| [| i]]]; simpl in Hi;
        [ | | | destruct i; discriminate Hi ].
      all: inversion Hi; subst st; clear Hi; enumerate Ha.
      all: do 2 eexists; split; [reflexivity |]; split; [reflexivity |].
      all: vm_compute; auto.
    + destruct i as [| [| [| i]]]; simpl in Hi;
        [ | | | destruct i; discriminate Hi ].
      all: inversion Hi; subst st; clear Hi; enumerate Ha.
      all: do 2 eexists; split; [reflexivity |]; split; [reflexivity |].
      all: vm_compute; auto.
  - intros i st a Hi Ha.
    destruct i as [| [| [| i]]]; simpl in Hi;
      [ | | | destruct i; discriminate Hi ].
    all: inversion Hi; subst st; clear Hi; enumerate Ha.
    all: eexists; split; [reflexivity |]; vm_compute; auto.
  - vm_compute. auto.
  - intros st Hst Hin. enumerate Hst; vm_compute in Hin; intuition discriminate.
Qed.

(** The deploy stage of the container pipeline takes the build output. *)
Lemma pipeline_artifact_flow_witness :
  exists j st',
    2 = S j
    /\ nth_error (stages CdkWoocommerceCicdStack.pipeline) j = Some st'
    /\ In CdkWoocommerceCicdStack.buildOutput (stageOutputs st').
Proof.
  refine (proj1 (proj2 (pipeline_artifact_flow containerTopology
                          CdkWoocommerceCicdStack.pipeline _ _))
                2 {| stageName := "Deploy";
                     stageActions := [CdkWoocommerceCicdStack.deployAction] |}
                CdkWoocommerceCicdStack.buildOutput _ _).
  - simpl. right. left. reflexivity.
  - simpl. left. reflexivity.
  - reflexivity.
  - simpl. left. reflexivity.
Defined.

(** * Further properties of the construct tree *)

(** Within each stack the identifiers given to the constructs are
    pairwise distinct, as are the names of the gateway resources and of
    the containers. *)
Theorem construct_ids_distinct (t : Template) :
  In t topologies ->
  NoDup (map constructId (constructs t))
  /\ NoDup (apiResources t)
  /\ NoDup (map containerName (containers t)).
Proof.
  intros Ht.
  assert (H : forall l : list string, nodup string_dec l = l -> NoDup l).
  { intros l Hl. rewrite <- Hl. apply NoDup_nodup. }
  destruct Ht as [<- | [<- | [<- | []]]]; repeat split; apply H; reflexivity.
Qed.

(** The identifiers of the container stack. *)
Lemma construct_ids_distinct_witness :
  NoDup (map constructId (constructs containerTopology)).
Proof.
  refine (proj1 (construct_ids_distinct containerTopology _)).
  simpl. right. right. left. reflexivity.
Defined.

(** The references between constructs stay inside the stack, with one
    exception.  Every topology has compute units, outputs and a
    distribution; the values in the environments of the compute units
    and of the build projects, the values of the outputs, the origins of
    the distribution, and the task definition and image repository of
    the containers and services belong to constructs of the same
    template.  Every pipeline action names constructs of its template,
    except the source action of each pipeline, which names a GitHub
    owner and repository and a secret that no stack creates. *)
Theorem references_resolve (t : Template) :
  In t topologies ->
  (computeUnits t <> [] /\ outputs t <> [] /\ distributions t <> [])
  /\ (forall u kv, In u (computeUnits t) -> In kv (environment u) ->
        registeredToken t (snd kv) = true)
  /\ (forall p kv, In p (projects t) -> In kv (environmentVariables p) ->
        registeredToken t (snd kv) = true)
  /\ (forall o tok, In o (outputs t) -> In (Ref tok) (outputValue o) ->
        registeredToken t tok = true)
  /\ (forall d, In d (distributions t) ->
        registeredOrigin t (origin (defaultBehavior d)) = true
        /\ forall r, In r (additionalBehaviors d) ->
                     registeredOrigin t (origin (snd r)) = true)
  /\ (forall pl st a, In pl (pipelines t) -> In st (stages pl) ->
        In a (stageActions st) ->
        registeredAction t a = true
        \/ (stageName st = "Source"
            /\ a = GitHubSourceAction "GitHub_Source" "your-github-username"
                     "your-repo-name" "your-github-token"
                     {| artifactName := "sourceOutput" |} "main"))
  /\ (In t pipelineTopologies ->
        exists pl, pipelines t = [pl]
                   /\ map (fun st => map (registeredAction t) (stageActions st))
                          (stages pl)
                      = [[false]; [true]; [true]])
  /\ (forall c, In c (containers t) ->
        registeredGrantee t (TaskRole (containerTask c)) = true
        /\ registeredArn t (repositoryArn (image c)) = true)
  /\ (forall s, In s (services t) ->
        registeredGrantee t (TaskRole (serviceTaskDefinition s)) = true).
Proof.
  intros Ht. destruct Ht as [<- | [<- | [<- | []]]].
  all: split; [repeat split; discriminate |].
  all: split; [intros u kv Hu Hkv; enumerate Hu; enumerate Hkv; reflexivity |].
  all: split; [intros p kv Hp Hkv; enumerate Hp; enumerate Hkv; reflexivity |].
  all: split; [intros o tok Ho Htok; enumerate Ho; vm_compute in Htok;
               repeat (destruct Htok as [Htok | Htok];
                       [try discriminate Htok; inversion Htok; reflexivity |]);
               contradiction |].
  all: split; [intros d Hd; enumerate Hd; split;
               [reflexivity | intros r Hr; enumerate Hr; reflexivity] |].
  all: split; [intros pl st a Hpl Hst Ha; enumerate Hpl; enumerate Hst;
               enumerate Ha;
               first [left; reflexivity | right; split; reflexivity] |].
  all: split; [| split; [intros c Hc; enumerate Hc; split; reflexivity
                        | intros s Hs; enumerate Hs; reflexivity]].
  - intros [H | [H | []]]; discriminate H.
  - intros _. eexists. split; reflexivity.
  - intros _. eexists. split; reflexivity.
Qed.

(** The references of the container stack. *)
Lemma references_resolve_witness :
  registeredGrantee containerTopology
    (TaskRole (serviceTaskDefinition CdkWoocommerceCicdStack.fargateService))
  = true.
Proof.
  refine (proj2 (proj2 (proj2 (proj2 (proj2 (proj2 (proj2 (proj2
            (references_resolve containerTopology _))))))))
            CdkWoocommerceCicdStack.fargateService _).
  - simpl. right. right. left. reflexivity.
  - simpl. left. reflexivity.
Defined.

(** The deploy action of the function topology invokes a function of
    the stack, and its parameters name the functions of the stack one
    to one: every function's address is the value of one parameter,
    every parameter is the address of a function, and no parameter
    name is used twice. *)
Theorem deploy_parameters_name_every_function (st : StageProps)
    (actionName lambda : string) (params : list (string * Token)) :
  In st (stages CdkWoocommerceStack1.pipeline) ->
  In (LambdaInvokeAction actionName lambda params) (stageActions st) ->
  stageName st = "Deploy"
  /\ In lambda (map functionId (functions gatewayPipelineTopology))
  /\ map snd params
     = map (fun f => functionArn (functionId f)) (functions gatewayPipelineTopology)
  /\ NoDup (map fst params).
Proof.
  intros Hst Ha. enumerate Hst; vm_compute in Ha;
    repeat (destruct Ha as [Ha | Ha]; try discriminate Ha); try contradiction.
  inversion Ha; subst actionName lambda params; clear Ha.
  split; [reflexivity |]. split; [vm_compute; auto |]. split; [reflexivity |].
  vm_compute. repeat constructor; simpl; intuition discriminate.
Qed.

(** The parameters of the deploy action. *)
Lemma deploy_parameters_name_every_function_witness :
  NoDup ["productsFunctionArn"; "ordersFunctionArn"; "cartFunctionArn"].
Proof.
  refine (proj2 (proj2 (proj2
            (deploy_parameters_name_every_function
               {| stageName := "Deploy";
                  stageActions := [CdkWoocommerceStack1.deployAction] |}
               "Deploy" "ProductsFunction"
               [("productsFunctionArn", functionArn "ProductsFunction");
                ("ordersFunctionArn", functionArn "OrdersFunction");
                ("cartFunctionArn", functionArn "CartFunction")] _ _)))).
  - simpl. right. right. left. reflexivity.
  - simpl. left. reflexivity.
Defined.
